(** * Workflow creation helpers and the reclaim-resources saga

    A shallow embedding of

    - [service/history/api/create_workflow_util.go]: the construction of the
      mutable state of a new workflow execution, the cross-cluster version
      check and the size validation of a start request;
    - [service/worker/deletenamespace/reclaimresources/workflow.go]: the
      workflow that deletes the executions of a namespace and then the
      namespace record itself.

    Both files drive objects that live elsewhere (the mutable state, the
    workflow runtime).  Those objects are modelled by their interface: the
    embedded functions thread the object through its methods and record, in a
    log, every call they make. *)

From Stdlib Require Import ZArith List String Bool Lia Sorted.
Import ListNotations.

Open Scope string_scope.
Open Scope Z_scope.
Open Scope list_scope.

(** ** Logged computations

    [Logged C E A] is a computation that performs calls of type [C] on its
    collaborators and then either fails with an [E] (Go: a non-nil [error])
    or yields an [A]. *)

Definition Logged (C E A : Type) : Type := (list C * (E + A))%type.

Definition ret {C E A} (a : A) : Logged C E A := ([], inr a).

Definition bind {C E A B} (m : Logged C E A) (f : A -> Logged C E B)
  : Logged C E B :=
  match m with
  | (l1, inl e) => (l1, inl e)
  | (l1, inr a) => let (l2, r) := f a in (l1 ++ l2, r)
  end.

(** [call c r]: perform the call [c], whose outcome is [r]. *)
Definition call {C E A} (c : C) (r : E + A) : Logged C E A := ([c], r).

Definition calls {C E A} (m : Logged C E A) : list C := fst m.
Definition outcome {C E A} (m : Logged C E A) : E + A := snd m.

Declare Scope logged_scope.
Delimit Scope logged_scope with logged.
Notation "x <- m ;; k" := (bind m (fun x => k))
  (at level 100, m at next level, right associativity) : logged_scope.
Notation "' p <- m ;; k" := (bind m (fun p => k))
  (at level 100, p pattern, m at next level, right associativity)
  : logged_scope.

(** * Part I: [service/history/api/create_workflow_util.go] *)

Module Api.

Definition int64 := Z.

(** [durationpb.Duration], in nanoseconds. *)
Definition Duration := Z.

(** The errors this file produces or passes on. *)
Inductive error : Type :=
| NamespaceNotActive (namespaceName currentCluster activeCluster : string)
    (* serviceerror.NewNamespaceNotActive *)
| ErrMemoSizeExceedsLimit          (* common.ErrMemoSizeExceedsLimit *)
| ErrBlobSizeExceedsLimit          (* common.ErrBlobSizeExceedsLimit *)
| MutableStateError (msg : string)
    (* whatever a mutable-state method returns *).

(** [namespace.Namespace], as far as this file reads it. *)
Record Namespace := {
  NamespaceName : string;
  NamespaceID : string;
  IsGlobalNamespace : bool;
  FailoverVersion : int64
}.

(** [cluster.Metadata]. *)
Record ClusterMetadata := {
  GetCurrentClusterName : string;
  ClusterNameForFailoverVersion : bool -> int64 -> string
}.

(** The dynamic configuration read by [ValidateStart]; every limit is a
    function of the namespace name. *)
Record Config := {
  BlobSizeLimitWarn : string -> Z;
  BlobSizeLimitError : string -> Z;
  MemoSizeLimitWarn : string -> Z;
  MemoSizeLimitError : string -> Z
}.

(** [shard.Context]. *)
Record Shard := {
  GetClusterMetadata : ClusterMetadata;
  GetConfig : Config;
  Now : Z (* GetTimeSource().Now() *)
}.

Inductive EventType :=
| WorkflowExecutionStarted
| WorkflowExecutionSignaled
| WorkflowTaskScheduled
| WorkflowTaskStarted.

(** [historypb.HistoryEvent]. *)
Record HistoryEvent := {
  EventId : int64;
  EventKind : EventType
}.

(** [commonpb.WorkflowExecution]. *)
Record WorkflowExecution := {
  WorkflowId : string;
  RunId : string
}.

(** [workflowspb.ParentExecutionInfo]. *)
Record ParentExecutionInfo := {
  ParentNamespaceId : string;
  ParentExecution : WorkflowExecution
}.

(** [workflowservice.StartWorkflowExecutionRequest], the fields read by
    [NewWorkflowWithSignal]. *)
Record StartWorkflowExecutionRequest := {
  RequestId : string;
  TaskQueue : string;
  Identity : string;
  WorkflowExecutionTimeout : option Duration;
  WorkflowRunTimeout : option Duration;
  RequestEagerExecution : bool
}.

(** [historyservice.StartWorkflowExecutionRequest]. *)
Record HistoryStartWorkflowExecutionRequest := {
  StartRequest : StartWorkflowExecutionRequest;
  ParentExecutionInfo_ : option ParentExecutionInfo;
  FirstWorkflowTaskBackoff : option Duration
}.

(** [workflowservice.SignalWithStartWorkflowExecutionRequest], the fields
    read through its getters. *)
Record SignalWithStartWorkflowExecutionRequest := {
  SignalRequestId : string;
  SignalName : string;
  SignalInput : string;
  SignalIdentity : string;
  SignalHeader : string;
  SignalLinks : list string
}.

(** The interface [workflow.MutableState], restricted to the methods this
    file calls.  The Go object is mutated in place; here every mutating
    method returns the new state.  A method that returns an [error] yields
    [inl]; the state is then dropped, as the callers return [nil]. *)
Class MutableState (ms : Type) := {
  SetHistoryTree :
    option Duration -> option Duration -> string -> ms -> error + ms;
  AddWorkflowExecutionStartedEvent :
    WorkflowExecution -> HistoryStartWorkflowExecutionRequest -> ms ->
    error + (HistoryEvent * ms);
  AddSignalRequested : string -> ms -> ms;
  AddWorkflowExecutionSignaled :
    string -> string -> string -> string -> list string -> ms ->
    error + (HistoryEvent * ms);
  AddFirstWorkflowTaskScheduled :
    HistoryEvent -> bool -> ms -> error + (int64 * ms);
  HasPendingWorkflowTask : ms -> bool;
  AddWorkflowTaskStartedEvent :
    int64 -> string -> string -> string -> ms -> error + ms;
  GetCurrentVersion : ms -> int64;
  GetNamespaceEntry : ms -> Namespace
}.

(** The calls made on the mutable state, in the order they are made. *)
Inductive Call :=
| CallSetHistoryTree (runID : string)
| CallAddWorkflowExecutionStartedEvent (execution : WorkflowExecution)
| CallAddSignalRequested (requestID : string)
| CallAddWorkflowExecutionSignaled (signalName : string)
| CallAddFirstWorkflowTaskScheduled (bypassTaskGeneration : bool)
| CallAddWorkflowTaskStartedEvent (scheduledEventID : int64)
    (requestID taskQueue identity : string).

Definition isAddSignalRequested (c : Call) : bool :=
  match c with CallAddSignalRequested _ => true | _ => false end.

Definition isAddWorkflowExecutionSignaled (c : Call) : bool :=
  match c with CallAddWorkflowExecutionSignaled _ => true | _ => false end.

Definition isAddFirstWorkflowTaskScheduled (c : Call) : bool :=
  match c with CallAddFirstWorkflowTaskScheduled _ => true | _ => false end.

Definition isAddWorkflowTaskStartedEvent (c : Call) : bool :=
  match c with CallAddWorkflowTaskStartedEvent _ _ _ _ => true | _ => false end.

Definition Init := Logged Call error.

(** What [ValidateStart] and the blob-size check emit. *)
Inductive MetricName := MemoSize | EventBlobSize.

Inductive Emission :=
| RecordMetric (name : MetricName) (commandType : string) (value : int64)
| LogWarn (namespaceName workflowID operation : string).

Definition isMemoSizeMetric (e : Emission) : bool :=
  match e with RecordMetric MemoSize _ _ => true | _ => false end.

Section CreateWorkflowUtil.

Context {ms : Type} `{MutableState ms}.

(** [workflow.NewMutableState]: a constructor, not a method. *)
Variable NewMutableState : Shard -> Namespace -> string -> string -> Z -> ms.

(** [common.EmptyVersion]; its value is declared outside this file. *)
Variable EmptyVersion : int64.

(** [common.CheckEventBlobSizeLimit actualSize warnLimit errorLimit
    namespace workflowID runID commandType operation]: what it emits and
    the error it returns, if any. *)
Variable CheckEventBlobSizeLimit :
  Z -> Z -> Z -> string -> string -> string -> string -> string ->
  list Emission * option error.

Local Open Scope logged_scope.

Definition CreateMutableState (shard : Shard) (namespaceEntry : Namespace)
    (executionTimeout runTimeout : option Duration)
    (workflowID runID : string) : Init ms :=
  let newMutableState :=
    NewMutableState shard namespaceEntry workflowID runID (Now shard) in
  call (CallSetHistoryTree runID)
       (SetHistoryTree executionTimeout runTimeout runID newMutableState).

Definition GenerateFirstWorkflowTask (mutableState : ms)
    (parentInfo : option ParentExecutionInfo) (startEvent : HistoryEvent)
    (bypassTaskGeneration : bool) : Init (int64 * ms) :=
  match parentInfo with
  | None =>
      (* WorkflowTask is only created when it is not a Child Workflow and
         no backoff is needed *)
      call (CallAddFirstWorkflowTaskScheduled bypassTaskGeneration)
           (AddFirstWorkflowTaskScheduled startEvent bypassTaskGeneration
              mutableState)
  | Some _ => ret (0, mutableState)
  end.

Definition NewWorkflowWithSignal (shard : Shard) (namespaceEntry : Namespace)
    (workflowID runID : string)
    (startRequest : HistoryStartWorkflowExecutionRequest)
    (signalWithStartRequest : option SignalWithStartWorkflowExecutionRequest)
    : Init ms :=
  newMutableState <-
    CreateMutableState shard namespaceEntry
      (WorkflowExecutionTimeout (StartRequest startRequest))
      (WorkflowRunTimeout (StartRequest startRequest))
      workflowID runID ;;
  let execution := {| WorkflowId := workflowID; RunId := runID |} in
  '(startEvent, newMutableState) <-
    call (CallAddWorkflowExecutionStartedEvent execution)
         (AddWorkflowExecutionStartedEvent execution startRequest
            newMutableState) ;;
  newMutableState <-
    match signalWithStartRequest with
    | Some s =>
        newMutableState <-
          (if String.eqb (SignalRequestId s) ""
           then ret newMutableState
           else call (CallAddSignalRequested (SignalRequestId s))
                     (inr (AddSignalRequested (SignalRequestId s)
                             newMutableState))) ;;
        '(_, newMutableState) <-
          call (CallAddWorkflowExecutionSignaled (SignalName s))
               (AddWorkflowExecutionSignaled (SignalName s) (SignalInput s)
                  (SignalIdentity s) (SignalHeader s) (SignalLinks s)
                  newMutableState) ;;
        ret newMutableState
    | None => ret newMutableState
    end ;;
  let requestEagerExecution :=
    RequestEagerExecution (StartRequest startRequest) in
  (* Generate first workflow task event if not child WF and no first
     workflow task backoff *)
  '(scheduledEventID, newMutableState) <-
    GenerateFirstWorkflowTask newMutableState
      (ParentExecutionInfo_ startRequest) startEvent requestEagerExecution ;;
  (* If first workflow task should back off (e.g. cron or workflow retry) a
     workflow task will not be scheduled. *)
  if requestEagerExecution && HasPendingWorkflowTask newMutableState
  then
    call (CallAddWorkflowTaskStartedEvent scheduledEventID
            (RequestId (StartRequest startRequest))
            (TaskQueue (StartRequest startRequest))
            (Identity (StartRequest startRequest)))
         (AddWorkflowTaskStartedEvent scheduledEventID
            (RequestId (StartRequest startRequest))
            (TaskQueue (StartRequest startRequest))
            (Identity (StartRequest startRequest))
            newMutableState)
  else ret newMutableState.

(** The part of [NewWorkflowWithSignal] that ends with the call of
    [GenerateFirstWorkflowTask]: the scheduled event id and the state on
    which [HasPendingWorkflowTask] is then asked. *)
Definition firstWorkflowTaskGenerated (shard : Shard)
    (namespaceEntry : Namespace) (workflowID runID : string)
    (startRequest : HistoryStartWorkflowExecutionRequest)
    (signalWithStartRequest : option SignalWithStartWorkflowExecutionRequest)
    : Init (int64 * ms) :=
  newMutableState <-
    CreateMutableState shard namespaceEntry
      (WorkflowExecutionTimeout (StartRequest startRequest))
      (WorkflowRunTimeout (StartRequest startRequest))
      workflowID runID ;;
  let execution := {| WorkflowId := workflowID; RunId := runID |} in
  '(startEvent, newMutableState) <-
    call (CallAddWorkflowExecutionStartedEvent execution)
         (AddWorkflowExecutionStartedEvent execution startRequest
            newMutableState) ;;
  newMutableState <-
    match signalWithStartRequest with
    | Some s =>
        newMutableState <-
          (if String.eqb (SignalRequestId s) ""
           then ret newMutableState
           else call (CallAddSignalRequested (SignalRequestId s))
                     (inr (AddSignalRequested (SignalRequestId s)
                             newMutableState))) ;;
        '(_, newMutableState) <-
          call (CallAddWorkflowExecutionSignaled (SignalName s))
               (AddWorkflowExecutionSignaled (SignalName s) (SignalInput s)
                  (SignalIdentity s) (SignalHeader s) (SignalLinks s)
                  newMutableState) ;;
        ret newMutableState
    | None => ret newMutableState
    end ;;
  GenerateFirstWorkflowTask newMutableState
    (ParentExecutionInfo_ startRequest) startEvent
    (RequestEagerExecution (StartRequest startRequest)).

Definition NewWorkflowVersionCheck (shard : Shard)
    (prevLastWriteVersion : int64) (newMutableState : ms) : option error :=
  if prevLastWriteVersion =? EmptyVersion then None
  else if prevLastWriteVersion >? GetCurrentVersion newMutableState then
    let clusterMetadata := GetClusterMetadata shard in
    let namespaceEntry := GetNamespaceEntry newMutableState in
    let clusterName :=
      ClusterNameForFailoverVersion clusterMetadata
        (IsGlobalNamespace namespaceEntry) prevLastWriteVersion in
    Some (NamespaceNotActive (NamespaceName namespaceEntry)
            (GetCurrentClusterName clusterMetadata) clusterName)
  else None.

(** [ValidateStart]: the emissions, in order, and the error returned. *)
Definition ValidateStart (shard : Shard) (namespaceEntry : Namespace)
    (workflowID : string) (workflowInputSize workflowMemoSize : Z)
    (operation : string) : list Emission * option error :=
  let config := GetConfig shard in
  let namespaceName := NamespaceName namespaceEntry in
  let (emitted1, err1) :=
    CheckEventBlobSizeLimit workflowInputSize
      (BlobSizeLimitWarn config namespaceName)
      (BlobSizeLimitError config namespaceName)
      namespaceName workflowID "" operation operation in
  match err1 with
  | Some err => (emitted1, Some err)
  | None =>
      let recorded := [RecordMetric MemoSize operation workflowMemoSize] in
      let (emitted2, err2) :=
        CheckEventBlobSizeLimit workflowMemoSize
          (MemoSizeLimitWarn config namespaceName)
          (MemoSizeLimitError config namespaceName)
          namespaceName workflowID "" operation operation in
      match err2 with
      | Some _ =>
          (emitted1 ++ recorded ++ emitted2, Some ErrMemoSizeExceedsLimit)
      | None => (emitted1 ++ recorded ++ emitted2, None)
      end
  end.

End CreateWorkflowUtil.

(** Modelled from the spec: [common.CheckEventBlobSizeLimit] is declared
    outside these sources.  Section 4.1: below the warn threshold the check
    passes silently; between warn and error it passes but emits a size metric
    and a structured log entry; at or above the error threshold it fails with
    the blob-too-large error. *)
Definition CheckEventBlobSizeLimit (actualSize warnLimit errorLimit : Z)
    (namespaceName workflowID runID commandType operation : string)
  : list Emission * option error :=
  if actualSize <? warnLimit then ([], None)
  else
    let emitted :=
      [RecordMetric EventBlobSize commandType actualSize;
       LogWarn namespaceName workflowID operation] in
    if actualSize <? errorLimit then (emitted, None)
    else (emitted, Some ErrBlobSizeExceedsLimit).

Section FirstTask.

Context {ms : Type} `{MutableState ms}.
Variable NewMutableState : Shard -> Namespace -> string -> string -> Z -> ms.

(** Modelled from the spec: what the mutable state, whose implementation is
    not among the sources, guarantees about the first unit of work.
    Section 4.4, [none -> scheduled -> started]: a new state has no first
    unit of work, and none of the calls that precede task generation
    creates one. *)
Record FirstTaskLaws : Prop := {
  new_no_pending : forall shard ns wid rid now,
    HasPendingWorkflowTask (NewMutableState shard ns wid rid now) = false;
  tree_pending : forall et rt rid s s',
    SetHistoryTree et rt rid s = inr s' ->
    HasPendingWorkflowTask s' = HasPendingWorkflowTask s;
  started_pending : forall ex req s ev s',
    AddWorkflowExecutionStartedEvent ex req s = inr (ev, s') ->
    HasPendingWorkflowTask s' = HasPendingWorkflowTask s;
  requested_pending : forall id s,
    HasPendingWorkflowTask (AddSignalRequested id s) =
    HasPendingWorkflowTask s;
  signaled_pending : forall n i idt h l s ev s',
    AddWorkflowExecutionSignaled n i idt h l s = inr (ev, s') ->
    HasPendingWorkflowTask s' = HasPendingWorkflowTask s
}.

End FirstTask.

Arguments new_no_pending {ms _ NewMutableState} _.
Arguments tree_pending {ms _ NewMutableState} _.
Arguments started_pending {ms _ NewMutableState} _.
Arguments requested_pending {ms _ NewMutableState} _.
Arguments signaled_pending {ms _ NewMutableState} _.

(** ** A reference mutable state

    Modelled from the spec: the implementation of [workflow.MutableState] is
    not among the sources.  Sections 3 and 4.4: an ordered event history, the
    current version, the signal-requested markers and the first unit of work
    with the states none, scheduled and started; a deferred-start policy
    (backoff) leaves the first unit of work unscheduled. *)

Inductive TaskState :=
| TaskNone
| TaskScheduled (scheduledEventID : int64)
| TaskStarted (scheduledEventID : int64).

Record RefState := {
  refNamespace : Namespace;
  refExecution : WorkflowExecution;
  refHistory : list HistoryEvent;
  refSignalRequested : list string;
  refTask : TaskState;
  refBackoff : bool
}.

Definition refNextEventID (s : RefState) : int64 :=
  Z.of_nat (List.length (refHistory s)) + 1.

Definition refAppend (k : EventType) (s : RefState) : HistoryEvent * RefState :=
  let ev := {| EventId := refNextEventID s; EventKind := k |} in
  (ev, {| refNamespace := refNamespace s;
          refExecution := refExecution s;
          refHistory := refHistory s ++ [ev];
          refSignalRequested := refSignalRequested s;
          refTask := refTask s;
          refBackoff := refBackoff s |}).

Definition refSetTask (t : TaskState) (s : RefState) : RefState :=
  {| refNamespace := refNamespace s;
     refExecution := refExecution s;
     refHistory := refHistory s;
     refSignalRequested := refSignalRequested s;
     refTask := t;
     refBackoff := refBackoff s |}.

Definition refNewMutableState (shard : Shard) (namespaceEntry : Namespace)
    (workflowID runID : string) (now : Z) : RefState :=
  {| refNamespace := namespaceEntry;
     refExecution := {| WorkflowId := workflowID; RunId := runID |};
     refHistory := [];
     refSignalRequested := [];
     refTask := TaskNone;
     refBackoff := false |}.

#[export] Instance RefMutableState : MutableState RefState := {
  SetHistoryTree _ _ _ s := inr s;
  AddWorkflowExecutionStartedEvent _ request s :=
    let (ev, s') := refAppend WorkflowExecutionStarted s in
    inr (ev,
         {| refNamespace := refNamespace s';
            refExecution := refExecution s';
            refHistory := refHistory s';
            refSignalRequested := refSignalRequested s';
            refTask := refTask s';
            refBackoff :=
              match FirstWorkflowTaskBackoff request with
              | Some d => d >? 0
              | None => false
              end |});
  AddSignalRequested requestID s :=
    {| refNamespace := refNamespace s;
       refExecution := refExecution s;
       refHistory := refHistory s;
       refSignalRequested := requestID :: refSignalRequested s;
       refTask := refTask s;
       refBackoff := refBackoff s |};
  AddWorkflowExecutionSignaled _ _ _ _ _ s :=
    inr (refAppend WorkflowExecutionSignaled s);
  AddFirstWorkflowTaskScheduled _ _ s :=
    if refBackoff s then inr (0, s)
    else
      let (ev, s') := refAppend WorkflowTaskScheduled s in
      inr (EventId ev, refSetTask (TaskScheduled (EventId ev)) s');
  HasPendingWorkflowTask s :=
    match refTask s with TaskNone => false | _ => true end;
  AddWorkflowTaskStartedEvent scheduledEventID _ _ _ s :=
    match refTask s with
    | TaskScheduled id =>
        if id =? scheduledEventID then
          let (_, s') := refAppend WorkflowTaskStarted s in
          inr (refSetTask (TaskStarted id) s')
        else inl (MutableStateError "workflow task not found")
    | _ => inl (MutableStateError "workflow task not found")
    end;
  GetCurrentVersion s := FailoverVersion (refNamespace s);
  GetNamespaceEntry s := refNamespace s
}.

(** ** Sample inputs *)

Definition sampleConfig : Config :=
  {| BlobSizeLimitWarn := fun _ => 512;
     BlobSizeLimitError := fun _ => 2048;
     MemoSizeLimitWarn := fun _ => 64;
     MemoSizeLimitError := fun _ => 256 |}.

Definition sampleShard : Shard :=
  {| GetClusterMetadata :=
       {| GetCurrentClusterName := "active";
          ClusterNameForFailoverVersion := fun _ _ => "standby" |};
     GetConfig := sampleConfig;
     Now := 0 |}.

Definition sampleNamespace : Namespace :=
  {| NamespaceName := "acme"; NamespaceID := "acme-id";
     IsGlobalNamespace := true; FailoverVersion := 7 |}.

Definition sampleStart (eager : bool) : StartWorkflowExecutionRequest :=
  {| RequestId := "request-1"; TaskQueue := "queue"; Identity := "starter";
     WorkflowExecutionTimeout := None; WorkflowRunTimeout := None;
     RequestEagerExecution := eager |}.

Definition sampleRequest (eager : bool) (parent : option ParentExecutionInfo)
  : HistoryStartWorkflowExecutionRequest :=
  {| StartRequest := sampleStart eager;
     ParentExecutionInfo_ := parent;
     FirstWorkflowTaskBackoff := None |}.

Definition sampleParent : ParentExecutionInfo :=
  {| ParentNamespaceId := "acme-id";
     ParentExecution := {| WorkflowId := "parent"; RunId := "parent-run" |} |}.

Definition sampleSignal (requestID : string)
  : SignalWithStartWorkflowExecutionRequest :=
  {| SignalRequestId := requestID; SignalName := "wake";
     SignalInput := "payload"; SignalIdentity := "signaler";
     SignalHeader := ""; SignalLinks := [] |}.

(** ** The validation and the normalization of a start request *)

(** The position of a call in [NewWorkflowWithSignal]. *)
Definition callOrder (c : Call) : nat :=
  match c with
  | CallSetHistoryTree _ => 0
  | CallAddWorkflowExecutionStartedEvent _ => 1
  | CallAddSignalRequested _ => 2
  | CallAddWorkflowExecutionSignaled _ => 3
  | CallAddFirstWorkflowTaskScheduled _ => 4
  | CallAddWorkflowTaskStartedEvent _ _ _ _ => 5
  end%nat.

(** Go's [len] of a string: its length in bytes. *)
Definition len (s : string) : Z := Z.of_nat (String.length s).

(** [timestamp.DurationValue]: the zero duration for [nil]. *)
Definition DurationValue (d : option Duration) : Duration :=
  match d with Some v => v | None => 0 end.

(** What [ValidateStartWorkflowExecutionRequest] returns: an invalid-argument
    error of its own, or the error of [ValidateStart]. *)
Inductive requestError :=
| InvalidArgument (message : string)  (* serviceerror.NewInvalidArgument *)
| SizeError (e : error).

(** The metrics recorded by [OverrideStartWorkflowExecutionRequest], with
    their operation and namespace tags. *)
Inductive OverrideMetric :=
| WorkflowRunTimeoutOverrideCount (operation namespaceName : string)
| WorkflowTaskTimeoutOverrideCount (operation namespaceName : string).

Section StartRequest.

(** Declared outside this file: the identifier length limit of the dynamic
    configuration, [timestamp.ValidateProtoDuration] (the text of its error,
    if any), the messages of the versioning override and of the retry policy
    with their validators, the two timeout overrides of [common] and the
    default workflow task timeout of the dynamic configuration. *)
Variable MaxIDLengthLimit : Config -> Z.
Variable ValidateProtoDuration : option Duration -> option string.
Context {VersioningOverride RetryPolicy : Type}.
Variable ValidateVersioningOverride :
  option VersioningOverride -> option requestError.
Variable RetryPolicyValidate : option RetryPolicy -> option requestError.
Variable CheckEventBlobSizeLimit :
  Z -> Z -> Z -> string -> string -> string -> string -> string ->
  list Emission * option error.
Variable OverrideWorkflowRunTimeout : Duration -> Duration -> Duration.
Variable DefaultWorkflowTaskTimeout : Config -> string -> Duration.
Variable OverrideWorkflowTaskTimeout :
  string -> Duration -> Duration -> (string -> Duration) -> Duration.

(** [workflowservice.StartWorkflowExecutionRequest], the fields read or
    written by the validation and the normalization.  A task queue and a
    workflow type are given by their name; [reqInputSize] and [reqMemoSize]
    stand for [GetInput().Size()] and [GetMemo().Size()]. *)
Record StartRequestFields := {
  reqRequestId : string;
  reqNamespace : string;
  reqWorkflowId : string;
  reqTaskQueue : option string;
  reqWorkflowType : option string;
  reqWorkflowExecutionTimeout : option Duration;
  reqWorkflowRunTimeout : option Duration;
  reqWorkflowTaskTimeout : option Duration;
  reqVersioningOverride : option VersioningOverride;
  reqRetryPolicy : option RetryPolicy;
  reqInputSize : Z;
  reqMemoSize : Z
}.

(** [GetName()] of a task queue or of a workflow type, [nil] included. *)
Definition GetName (n : option string) : string :=
  match n with Some name => name | None => "" end.

Definition isNil {A} (o : option A) : bool :=
  match o with Some _ => false | None => true end.

Definition ValidateStartWorkflowExecutionRequest
    (request : StartRequestFields) (shard : Shard)
    (namespaceEntry : Namespace) (operation : string)
  : list Emission * option requestError :=
  let workflowID := reqWorkflowId request in
  let maxIDLengthLimit := MaxIDLengthLimit (GetConfig shard) in
  let invalid msg := ([], Some (InvalidArgument msg)) in
  if len (reqRequestId request) =? 0 then invalid "Missing request ID."
  else
  match ValidateProtoDuration (reqWorkflowExecutionTimeout request) with
  | Some err =>
      invalid ("invalid WorkflowExecutionTimeoutSeconds: " ++ err)%string
  | None =>
  match ValidateProtoDuration (reqWorkflowRunTimeout request) with
  | Some err => invalid ("invalid WorkflowRunTimeoutSeconds: " ++ err)%string
  | None =>
  match ValidateProtoDuration (reqWorkflowTaskTimeout request) with
  | Some err => invalid ("invalid WorkflowTaskTimeoutSeconds: " ++ err)%string
  | None =>
  if isNil (reqTaskQueue request)
     || String.eqb (GetName (reqTaskQueue request)) ""
  then invalid "Missing Taskqueue."
  else if isNil (reqWorkflowType request)
          || String.eqb (GetName (reqWorkflowType request)) ""
  then invalid "Missing WorkflowType."
  else if len (reqNamespace request) >? maxIDLengthLimit
  then invalid "Namespace exceeds length limit."
  else if len (reqWorkflowId request) >? maxIDLengthLimit
  then invalid "WorkflowId exceeds length limit."
  else if len (GetName (reqTaskQueue request)) >? maxIDLengthLimit
  then invalid "TaskQueue exceeds length limit."
  else if len (GetName (reqWorkflowType request)) >? maxIDLengthLimit
  then invalid "WorkflowType exceeds length limit."
  else
  match ValidateVersioningOverride (reqVersioningOverride request) with
  | Some err => ([], Some err)
  | None =>
  match RetryPolicyValidate (reqRetryPolicy request) with
  | Some err => ([], Some err)
  | None =>
      let (emitted, err) :=
        ValidateStart CheckEventBlobSizeLimit shard namespaceEntry workflowID
          (reqInputSize request) (reqMemoSize request) operation in
      (emitted, option_map SizeError err)
  end
  end
  end
  end
  end.

Definition setWorkflowRunTimeout (d : option Duration)
    (request : StartRequestFields) : StartRequestFields :=
  {| reqRequestId := reqRequestId request;
     reqNamespace := reqNamespace request;
     reqWorkflowId := reqWorkflowId request;
     reqTaskQueue := reqTaskQueue request;
     reqWorkflowType := reqWorkflowType request;
     reqWorkflowExecutionTimeout := reqWorkflowExecutionTimeout request;
     reqWorkflowRunTimeout := d;
     reqWorkflowTaskTimeout := reqWorkflowTaskTimeout request;
     reqVersioningOverride := reqVersioningOverride request;
     reqRetryPolicy := reqRetryPolicy request;
     reqInputSize := reqInputSize request;
     reqMemoSize := reqMemoSize request |}.

Definition setWorkflowTaskTimeout (d : option Duration)
    (request : StartRequestFields) : StartRequestFields :=
  {| reqRequestId := reqRequestId request;
     reqNamespace := reqNamespace request;
     reqWorkflowId := reqWorkflowId request;
     reqTaskQueue := reqTaskQueue request;
     reqWorkflowType := reqWorkflowType request;
     reqWorkflowExecutionTimeout := reqWorkflowExecutionTimeout request;
     reqWorkflowRunTimeout := reqWorkflowRunTimeout request;
     reqWorkflowTaskTimeout := d;
     reqVersioningOverride := reqVersioningOverride request;
     reqRetryPolicy := reqRetryPolicy request;
     reqInputSize := reqInputSize request;
     reqMemoSize := reqMemoSize request |}.

(** [OverrideStartWorkflowExecutionRequest]: the request as it leaves it and
    the metrics it records, in order.  [durationpb.New d] is [Some d]. *)
Definition OverrideStartWorkflowExecutionRequest
    (request : StartRequestFields) (operation : string) (shard : Shard)
  : StartRequestFields * list OverrideMetric :=
  (* workflow execution timeout is left as is
     if workflow execution timeout == 0 -> infinity *)
  let namespaceName := reqNamespace request in
  let workflowRunTimeout :=
    OverrideWorkflowRunTimeout
      (DurationValue (reqWorkflowRunTimeout request))
      (DurationValue (reqWorkflowExecutionTimeout request)) in
  let (request, recorded1) :=
    if workflowRunTimeout =? DurationValue (reqWorkflowRunTimeout request)
    then (request, [])
    else (setWorkflowRunTimeout (Some workflowRunTimeout) request,
          [WorkflowRunTimeoutOverrideCount operation namespaceName]) in
  let workflowTaskStartToCloseTimeout :=
    OverrideWorkflowTaskTimeout namespaceName
      (DurationValue (reqWorkflowTaskTimeout request))
      (DurationValue (reqWorkflowRunTimeout request))
      (DefaultWorkflowTaskTimeout (GetConfig shard)) in
  let (request, recorded2) :=
    if workflowTaskStartToCloseTimeout
       =? DurationValue (reqWorkflowTaskTimeout request)
    then (request, [])
    else (setWorkflowTaskTimeout (Some workflowTaskStartToCloseTimeout)
            request,
          [WorkflowTaskTimeoutOverrideCount operation namespaceName]) in
  (request, recorded1 ++ recorded2).

End StartRequest.

(** A mutable state on which recording the started event fails. *)
Definition StartedEventFails : MutableState unit := {|
  SetHistoryTree _ _ _ s := inr s;
  AddWorkflowExecutionStartedEvent _ _ _ :=
    inl (MutableStateError "unable to add the started event");
  AddSignalRequested _ s := s;
  AddWorkflowExecutionSignaled _ _ _ _ _ s :=
    inr ({| EventId := 2; EventKind := WorkflowExecutionSignaled |}, s);
  AddFirstWorkflowTaskScheduled _ _ s := inr (3, s);
  HasPendingWorkflowTask _ := true;
  AddWorkflowTaskStartedEvent _ _ _ _ s := inr s;
  GetCurrentVersion _ := 0;
  GetNamespaceEntry _ := sampleNamespace
|}.

(** A start request that passes every check of the sample validators. *)
Definition sampleFields : @StartRequestFields unit unit :=
  {| reqRequestId := "request-1";
     reqNamespace := "acme";
     reqWorkflowId := "";
     reqTaskQueue := Some "queue";
     reqWorkflowType := Some "cleanup";
     reqWorkflowExecutionTimeout := Some 60;
     reqWorkflowRunTimeout := None;
     reqWorkflowTaskTimeout := None;
     reqVersioningOverride := None;
     reqRetryPolicy := None;
     reqInputSize := 100;
     reqMemoSize := 10 |}.

(** Sample validators: a duration is valid unless negative. *)
Definition sampleValidateProtoDuration (d : option Duration)
  : option string :=
  match d with
  | Some v => if v <? 0 then Some "negative duration" else None
  | None => None
  end.

(** Sample overrides: a run timeout capped by a positive execution timeout,
    a task timeout left as it is. *)
Definition sampleOverrideRunTimeout (run execution : Duration) : Duration :=
  if (execution >? 0) && ((run =? 0) || (run >? execution))
  then execution else run.

Definition sampleOverrideTaskTimeout (namespaceName : string)
    (task run : Duration) (default : string -> Duration) : Duration :=
  task.

End Api.

(** * Part II: [service/worker/deletenamespace/reclaimresources/workflow.go] *)

Module ReclaimResources.

(** [time.Duration], in nanoseconds. *)
Definition Duration := Z.
Definition Second : Duration := 1000000000.
Definition Minute : Duration := 60 * Second.
Definition Hour : Duration := 60 * Minute.

Definition namespaceCacheRefreshDelay : Duration := 11 * Second.

(** [workflow.Version] and the SDK's [workflow.DefaultVersion]. *)
Definition Version := Z.
Definition DefaultVersion : Version := -1.

(** A value attached to an application error.  [Details(&n)] with [n] an
    [int] decodes an [IntDetail]; on anything else it fails and leaves [n]
    as it was. *)
Inductive DetailValue := IntDetail (n : Z) | OpaqueDetail (raw : string).

(** [temporal.ApplicationError]. *)
Record ApplicationError := {
  Message : string;
  Type_ : string;
  NonRetryable : bool;
  Details : list DetailValue
}.

(** The sentinel errors of [deletenamespace/errors] used here. *)
Inductive Sentinel :=
| ErrUnableToExecuteActivity
| ErrUnableToExecuteChildWorkflow
| ErrUnableToSetUpdateHandler.

(** Go [error] values, as far as the workflow builds or inspects them. *)
Inductive error : Type :=
| AppError (a : ApplicationError)
| ActivityError (cause : error)
    (* the SDK's wrapper around the failure of an activity *)
| ChildWorkflowExecutionError (cause : error)
| CanceledError
| OtherError (msg : string)
| Errorf (sentinel : Sentinel) (what : string) (cause : error)
    (* fmt.Errorf("%w: what: %v", sentinel, cause) *).

(** [errors.As(err, &appErr)]: the first application error on the [Unwrap]
    chain.  [Errorf] unwraps to its sentinel only, [%v] does not wrap. *)
Fixpoint asApplicationError (err : error) : option ApplicationError :=
  match err with
  | AppError a => Some a
  | ActivityError cause => asApplicationError cause
  | ChildWorkflowExecutionError cause => asApplicationError cause
  | CanceledError => None
  | OtherError _ => None
  | Errorf _ _ _ => None
  end.

(** [temporal.NewApplicationError] (retryable) and
    [temporal.NewNonRetryableApplicationError]. *)
Definition NewApplicationError (msg errType : string)
    (details : list DetailValue) : error :=
  AppError {| Message := msg; Type_ := errType; NonRetryable := false;
              Details := details |}.

Definition NewNonRetryableApplicationError (msg errType : string) : error :=
  AppError {| Message := msg; Type_ := errType; NonRetryable := true;
              Details := [] |}.

Definition HasDetails (a : ApplicationError) : bool :=
  match Details a with [] => false | _ :: _ => true end.

(** [_ = appErr.Details(&notDeletedCount)], starting from the zero value. *)
Definition decodeNotDeletedCount (a : ApplicationError) : Z :=
  match Details a with
  | IntDetail n :: _ => n
  | _ => 0
  end.

Record DeleteExecutionsResult := {
  SuccessCount : Z;
  ErrorCount : Z
}.

Record ReclaimResourcesResult := {
  DeleteSuccessCount : Z;
  DeleteErrorCount : Z;
  NamespaceDeleted : bool
}.

Definition zeroResult : ReclaimResourcesResult :=
  {| DeleteSuccessCount := 0; DeleteErrorCount := 0;
     NamespaceDeleted := false |}.

(** The counters incremented by the deferred function. *)
Inductive Counter :=
| ReclaimResourcesNamespaceDeleteSuccessCount
| ReclaimResourcesNamespaceDeleteFailureCount
| ReclaimResourcesDeleteExecutionsSuccessCount
| ReclaimResourcesDeleteExecutionsFailureCount.

(** What the runtime hands back at a suspension point: the update requests
    delivered while the call was outstanding, in order, and the result. *)
Record Await (A : Type) := {
  delivered : list string;
  result : A
}.
Arguments delivered {A} _.
Arguments result {A} _.

(** What the update handler did with a request. *)
Inductive UpdateOutcome :=
| UpdateRejected (request : string)
| CancelDeleteDelay (wait : nat)
    (* cancelDeleteDelay(), for the [wait]-th cancelable sleep *)
| UpdateCompleted (newDelay : Duration) (timerCancelled : bool).

(** Declared in packages that are not part of these sources:
    [deleteexecutions.DeleteExecutionsConfig] with its [ApplyDefaults], the
    name of the child workflow, the error types of [deletenamespace/errors],
    and the standard library's [time.ParseDuration] ([None] when it returns
    an error). *)
Class Dependencies := {
  Config : Type;
  ApplyDefaults : Config -> Config;
  deleteexecutionsWorkflowName : string;
  ExecutionsStillExistErrType : string;
  NoProgressErrType : string;
  NotDeletedExecutionsStillExistErrType : string;
  ValidationErrorErrType : string;
  ParseDuration : string -> option Duration
}.

Section Workflow.

Context {deps : Dependencies}.

(** [deleteexecutions.DeleteExecutionsParams]. *)
Record DeleteExecutionsParams := {
  Namespace : string;
  NamespaceID : string;
  Config_ : Config
}.

Record ReclaimResourcesParams := {
  DeleteExecutionsParams_ : DeleteExecutionsParams;
  NamespaceDeleteDelay : Duration
}.

(** The calls the workflow makes on the runtime. *)
Inductive Call :=
| Sleep (d : Duration)
| SleepCancelable (wait : nat) (d : Duration)
    (* workflow.Sleep on the [wait]-th context made by workflow.WithCancel *)
| GetVersion (changeID : string) (minSupported maxSupported : Version)
| IsAdvancedVisibilityActivity (ns : string)
| CountExecutionsAdvVisibilityActivity (nsID ns : string)
| DeleteExecutionsWorkflow (workflowID : string) (p : DeleteExecutionsParams)
| EnsureNoExecutionsAdvVisibilityActivity (nsID ns : string)
    (notDeletedCount : Z)
| DeleteNamespaceActivity (nsID ns : string)
| IncCounter (c : Counter) (n : Z).

(** The outcomes of one run, chosen by the runtime. *)
Record Env := {
  setUpdateHandlerError : option error;
  cacheRefreshSleep : Await (option error);
  removeStdVisVersion : Version;
  isAdvancedVisibility : Await (error + bool);
  countExecutions : Await (error + Z);
  deleteExecutions : Await (error + DeleteExecutionsResult);
  ensureNoExecutions : Await (option error);
  delayWaits : list (list string);
    (* the update requests delivered during the 1st, 2nd, ... cancelable
       sleep; past the end of the list none is delivered *)
  deleteNamespace : Await (option error)
}.

(** The variables shared by the main sequence and the update handler, and
    the two logs. *)
Record WfState := {
  namespaceDeleteDelay : Duration;
  cancelDeleteDelay : option nat;   (* nil, or the sleep it cancels *)
  trace : list Call;
  updates : list UpdateOutcome
}.

Definition Workflow (A : Type) : Type := WfState -> A * WfState.

Definition wret {A} (a : A) : Workflow A := fun st => (a, st).

Definition wbind {A B} (m : Workflow A) (f : A -> Workflow B) : Workflow B :=
  fun st => let (a, st') := m st in f a st'.

Declare Scope workflow_scope.
Delimit Scope workflow_scope with workflow.
Notation "x <- m ;; k" := (wbind m (fun x => k))
  (at level 100, m at next level, right associativity) : workflow_scope.
Notation "' p <- m ;; k" := (wbind m (fun p => k))
  (at level 100, p pattern, m at next level, right associativity)
  : workflow_scope.
Notation "m ;; k" := (wbind m (fun _ => k))
  (at level 100, right associativity) : workflow_scope.
Local Open Scope workflow_scope.

Definition emit (c : Call) : Workflow unit := fun st =>
  (tt, {| namespaceDeleteDelay := namespaceDeleteDelay st;
          cancelDeleteDelay := cancelDeleteDelay st;
          trace := trace st ++ [c];
          updates := updates st |}).

Definition note (u : UpdateOutcome) : Workflow unit := fun st =>
  (tt, {| namespaceDeleteDelay := namespaceDeleteDelay st;
          cancelDeleteDelay := cancelDeleteDelay st;
          trace := trace st;
          updates := updates st ++ [u] |}).

Definition setNamespaceDeleteDelay (d : Duration) : Workflow unit := fun st =>
  (tt, {| namespaceDeleteDelay := d;
          cancelDeleteDelay := cancelDeleteDelay st;
          trace := trace st;
          updates := updates st |}).

Definition setCancelDeleteDelay (c : option nat) : Workflow unit := fun st =>
  (tt, {| namespaceDeleteDelay := namespaceDeleteDelay st;
          cancelDeleteDelay := c;
          trace := trace st;
          updates := updates st |}).

Definition getNamespaceDeleteDelay : Workflow Duration := fun st =>
  (namespaceDeleteDelay st, st).

Definition getCancelDeleteDelay : Workflow (option nat) := fun st =>
  (cancelDeleteDelay st, st).

(** The validator of [update_namespace_delete_delay]. *)
Definition updateValidator (newNamespaceDeleteDelayStr : string)
  : option error :=
  if String.eqb newNamespaceDeleteDelayStr "" then
    Some (NewNonRetryableApplicationError "delay duration is required"
            ValidationErrorErrType)
  else
    match ParseDuration newNamespaceDeleteDelayStr with
    | None =>
        Some (NewNonRetryableApplicationError
                "unable to parse delay duration" ValidationErrorErrType)
    | Some newDuration =>
        if newDuration <? 0 then
          Some (NewNonRetryableApplicationError
                  "delay duration must be positive" ValidationErrorErrType)
        else if newDuration >? 30 * 24 * Hour then
          Some (NewNonRetryableApplicationError
                  "delay duration must be less than 30 days"
                  ValidationErrorErrType)
        else None
    end.

(** The handler of [update_namespace_delete_delay]. *)
Definition updateHandler (newNamespaceDeleteDelayStr : string)
  : Workflow unit :=
  (* This must succeed because Update validator already validated the
     input. *)
  setNamespaceDeleteDelay
    (match ParseDuration newNamespaceDeleteDelayStr with
     | Some d => d
     | None => 0
     end) ;;
  newDelay <- getNamespaceDeleteDelay ;;
  cancel <- getCancelDeleteDelay ;;
  match cancel with
  | Some wait =>
      note (CancelDeleteDelay wait) ;;
      note (UpdateCompleted newDelay true)
  | None => note (UpdateCompleted newDelay false)
  end.

(** The runtime runs the validator, then the handler on what it accepts. *)
Definition deliver (request : string) : Workflow unit :=
  match updateValidator request with
  | Some _ => note (UpdateRejected request)
  | None => updateHandler request
  end.

Fixpoint deliverAll (requests : list string) : Workflow unit :=
  match requests with
  | [] => wret tt
  | r :: rest => deliver r ;; deliverAll rest
  end.

(** A suspension point: the call is issued, the coroutine blocks, the
    handler runs for every request delivered meanwhile, and the result
    comes back. *)
Definition await {A} (c : Call) (a : Await A) : Workflow A :=
  emit c ;;
  deliverAll (delivered a) ;;
  wret (result a).

Definition validateParams (params : ReclaimResourcesParams)
  : ReclaimResourcesParams * option error :=
  let dp := DeleteExecutionsParams_ params in
  if String.eqb (NamespaceID dp) "" then
    (params, Some (NewNonRetryableApplicationError
                     "namespace ID is required" ""))
  else if String.eqb (Namespace dp) "" then
    (params, Some (NewNonRetryableApplicationError
                     "namespace is required" ""))
  else
    ({| DeleteExecutionsParams_ :=
          {| Namespace := Namespace dp;
             NamespaceID := NamespaceID dp;
             Config_ := ApplyDefaults (Config_ dp) |};
        NamespaceDeleteDelay := NamespaceDeleteDelay params |},
     None).

Definition isNotDeletedErrType (t : string) : bool :=
  String.eqb t ExecutionsStillExistErrType
  || String.eqb t NoProgressErrType
  || String.eqb t NotDeletedExecutionsStillExistErrType.

Definition deleteWorkflowExecutions (env : Env)
    (params : ReclaimResourcesParams)
  : Workflow (ReclaimResourcesResult * option error) :=
  let dp := DeleteExecutionsParams_ params in
  let result := zeroResult in
  (* TODO: remove this code branch after v1.26 release *)
  emit (GetVersion "remove-std-vis" DefaultVersion 0) ;;
  let v := removeStdVisVersion env in
  probeErr <-
    (if v =? DefaultVersion then
       r <- await (IsAdvancedVisibilityActivity (Namespace dp))
                  (isAdvancedVisibility env) ;;
       match r with
       | inl err =>
           wret (Some (Errorf ErrUnableToExecuteActivity
                         "IsAdvancedVisibilityActivity" err))
       | inr _ => wret None
       end
     else wret None) ;;
  match probeErr with
  | Some err => wret (result, Some err)
  | None =>
  count <- await (CountExecutionsAdvVisibilityActivity (NamespaceID dp)
                    (Namespace dp))
                 (countExecutions env) ;;
  match count with
  | inl err =>
      wret (result, Some (Errorf ErrUnableToExecuteActivity
                            "CountExecutionsAdvVisibilityActivity" err))
  | inr executionsCount =>
  if executionsCount =? 0 then wret (result, None) else
  child <- await (DeleteExecutionsWorkflow
                    (deleteexecutionsWorkflowName ++ "/" ++ Namespace dp)%string
                    dp)
                 (deleteExecutions env) ;;
  match child with
  | inl err =>
      wret (result, Some (Errorf ErrUnableToExecuteChildWorkflow
                            deleteexecutionsWorkflowName err))
  | inr der =>
  let result :=
    {| DeleteSuccessCount := SuccessCount der;
       DeleteErrorCount := ErrorCount der;
       NamespaceDeleted := NamespaceDeleted result |} in
  ensured <- await (EnsureNoExecutionsAdvVisibilityActivity
                      (NamespaceID dp) (Namespace dp) (ErrorCount der))
                   (ensureNoExecutions env) ;;
  match ensured with
  | Some err =>
      let unable :=
        Errorf ErrUnableToExecuteActivity "EnsureNoExecutionsActivity" err in
      match asApplicationError err with
      | Some appErr =>
          if isNotDeletedErrType (Type_ appErr) then
            let notDeletedCount :=
              if HasDetails appErr then decodeNotDeletedCount appErr
              else 0 in
            (* appErr is not retryable. Convert it to retryable for the
               server to retry. *)
            wret (result,
                  Some (NewApplicationError (Message appErr) (Type_ appErr)
                          [IntDetail notDeletedCount]))
          else wret (result, Some unable)
      | None => wret (result, Some unable)
      end
  | None => wret (result, None)
  end
  end
  end
  end.

(** Step 2 of [ReclaimResourcesWorkflow], the loop
    [for namespaceDeleteDelay > 0 { ... }].  [waits] lists what is
    delivered during each sleep still to come and [wait] numbers the next
    one.  A sleep during which nothing is left to deliver runs out, leaves
    [namespaceDeleteDelay] at 0 and so ends the loop. *)
Fixpoint awaitNamespaceDeleteDelay (waits : list (list string)) (wait : nat)
  : Workflow unit :=
  fun st =>
    if namespaceDeleteDelay st >? 0 then
      (setCancelDeleteDelay (Some wait) ;;
       ndd <- getNamespaceDeleteDelay ;;
       setNamespaceDeleteDelay 0 ;;
       emit (SleepCancelable wait ndd) ;;
       match waits with
       | [] => wret tt
       | requests :: rest =>
           deliverAll requests ;;
           awaitNamespaceDeleteDelay rest (S wait)
       end) st
    else (tt, st).

(** The deferred function of [ReclaimResourcesWorkflow]. *)
Definition deferredMetrics (result : ReclaimResourcesResult)
  : Workflow unit :=
  (if NamespaceDeleted result
   then emit (IncCounter ReclaimResourcesNamespaceDeleteSuccessCount 1)
   else emit (IncCounter ReclaimResourcesNamespaceDeleteFailureCount 1)) ;;
  (if DeleteSuccessCount result >? 0
   then emit (IncCounter ReclaimResourcesDeleteExecutionsSuccessCount
                (DeleteSuccessCount result))
   else wret tt) ;;
  (if DeleteErrorCount result >? 0
   then emit (IncCounter ReclaimResourcesDeleteExecutionsFailureCount
                (DeleteErrorCount result))
   else wret tt).

Definition ReclaimResourcesWorkflow (env : Env)
    (params : ReclaimResourcesParams)
  : Workflow (ReclaimResourcesResult * option error) :=
  let result := zeroResult in
  let (params, invalid) := validateParams params in
  match invalid with
  | Some err => wret (result, Some err)
  | None =>
  let dp := DeleteExecutionsParams_ params in
  '(result, err) <-
    (setNamespaceDeleteDelay (NamespaceDeleteDelay params) ;;
     setCancelDeleteDelay None ;;
     match setUpdateHandlerError env with
     | Some err =>
         wret (result, Some (Errorf ErrUnableToSetUpdateHandler "" err))
     | None =>
     (* Step 0. This workflow is started right after the namespace is
        marked as DELETED and renamed.  Wait for namespace cache refresh to
        make sure no new executions are created. *)
     slept <- await (Sleep namespaceCacheRefreshDelay)
                    (cacheRefreshSleep env) ;;
     match slept with
     | Some err => wret (result, Some err)
     | None =>
     (* Step 1. Delete workflow executions. *)
     '(result, err) <- deleteWorkflowExecutions env params ;;
     match err with
     | Some err => wret (result, Some err)
     | None =>
     (* Step 2. Sleep before deleting namespace from a database. *)
     awaitNamespaceDeleteDelay (delayWaits env) 0 ;;
     (* Step 3. Delete namespace from database. *)
     deleted <- await (DeleteNamespaceActivity (NamespaceID dp)
                         (Namespace dp))
                      (deleteNamespace env) ;;
     match deleted with
     | Some err =>
         wret (result,
               Some (Errorf ErrUnableToExecuteActivity
                       "DeleteNamespaceActivity" err))
     | None =>
         wret ({| DeleteSuccessCount := DeleteSuccessCount result;
                  DeleteErrorCount := DeleteErrorCount result;
                  NamespaceDeleted := true |}, None)
     end
     end
     end
     end) ;;
  deferredMetrics result ;;
  wret (result, err)
  end.

(** The state in which a run starts. *)
Definition initialState : WfState :=
  {| namespaceDeleteDelay := 0; cancelDeleteDelay := None;
     trace := []; updates := [] |}.

Definition run (env : Env) (params : ReclaimResourcesParams)
  : (ReclaimResourcesResult * option error) * WfState :=
  ReclaimResourcesWorkflow env params initialState.

(** The delay set by the last of [requests] that the validator accepts. *)
Fixpoint lastAccepted (requests : list string) : option Duration :=
  match requests with
  | [] => None
  | r :: rest =>
      match lastAccepted rest with
      | Some d => Some d
      | None =>
          match updateValidator r with
          | Some _ => None
          | None =>
              Some (match ParseDuration r with Some d => d | None => 0 end)
          end
      end
  end.

(** The part of [ReclaimResourcesWorkflow] that precedes Step 1: the
    validated parameters and the state in which [deleteWorkflowExecutions] is
    called, when the run gets that far. *)
Definition beforeDeleteWorkflowExecutions (env : Env)
    (params : ReclaimResourcesParams)
  : option (ReclaimResourcesParams * WfState) :=
  let (params, invalid) := validateParams params in
  match invalid, setUpdateHandlerError env with
  | None, None =>
      let (slept, st) :=
        (setNamespaceDeleteDelay (NamespaceDeleteDelay params) ;;
         setCancelDeleteDelay None ;;
         await (Sleep namespaceCacheRefreshDelay) (cacheRefreshSleep env))
          initialState in
      match slept with
      | None => Some (params, st)
      | Some _ => None
      end
  | _, _ => None
  end.

(** The durations of the cancelable sleeps of a trace, in order. *)
Fixpoint delaySleeps (t : list Call) : list Duration :=
  match t with
  | [] => []
  | SleepCancelable _ d :: rest => d :: delaySleeps rest
  | _ :: rest => delaySleeps rest
  end.

(** The step of [ReclaimResourcesWorkflow] a call belongs to; 4 is the
    deferred function. *)
Definition stage (c : Call) : nat :=
  match c with
  | Sleep _ => 0
  | GetVersion _ _ _ => 1
  | IsAdvancedVisibilityActivity _ => 1
  | CountExecutionsAdvVisibilityActivity _ _ => 1
  | DeleteExecutionsWorkflow _ _ => 1
  | EnsureNoExecutionsAdvVisibilityActivity _ _ _ => 1
  | SleepCancelable _ _ => 2
  | DeleteNamespaceActivity _ _ => 3
  | IncCounter _ _ => 4
  end%nat.

Definition isDeleteNamespaceActivity (c : Call) : bool :=
  match c with DeleteNamespaceActivity _ _ => true | _ => false end.

Definition isDeleteExecutionsWorkflow (c : Call) : bool :=
  match c with DeleteExecutionsWorkflow _ _ => true | _ => false end.

Definition isIsAdvancedVisibilityActivity (c : Call) : bool :=
  match c with IsAdvancedVisibilityActivity _ => true | _ => false end.

Definition isEnsureNoExecutions (c : Call) : bool :=
  match c with
  | EnsureNoExecutionsAdvVisibilityActivity _ _ _ => true
  | _ => false
  end.

Definition isCountExecutions (c : Call) : bool :=
  match c with
  | CountExecutionsAdvVisibilityActivity _ _ => true
  | _ => false
  end.

(** ** The anatomy of a run *)

(** The counters the deferred function increments for a result. *)
Definition deferredCounters (result : ReclaimResourcesResult) : list Call :=
  [IncCounter (if NamespaceDeleted result
               then ReclaimResourcesNamespaceDeleteSuccessCount
               else ReclaimResourcesNamespaceDeleteFailureCount) 1]
  ++ (if DeleteSuccessCount result >? 0
      then [IncCounter ReclaimResourcesDeleteExecutionsSuccessCount
              (DeleteSuccessCount result)]
      else [])
  ++ (if DeleteErrorCount result >? 0
      then [IncCounter ReclaimResourcesDeleteExecutionsFailureCount
              (DeleteErrorCount result)]
      else []).

(** The five ways [ReclaimResourcesWorkflow] can go once its parameters are
    valid: the calls it makes before the deferred function runs, the result
    and the error it returns. *)
Inductive Body (env : Env) (params : ReclaimResourcesParams)
  : list Call -> ReclaimResourcesResult -> option error -> Prop :=
| HandlerNotSet e :
    setUpdateHandlerError env = Some e ->
    Body env params [] zeroResult
      (Some (Errorf ErrUnableToSetUpdateHandler "" e))
| CacheRefreshFailed e :
    setUpdateHandlerError env = None ->
    result (cacheRefreshSleep env) = Some e ->
    Body env params [Sleep namespaceCacheRefreshDelay] zeroResult (Some e)
| ExecutionsNotDeleted st1 st2 r e new :
    setUpdateHandlerError env = None ->
    result (cacheRefreshSleep env) = None ->
    deleteWorkflowExecutions env params st1 = ((r, Some e), st2) ->
    trace st2 = trace st1 ++ new ->
    Body env params (Sleep namespaceCacheRefreshDelay :: new) r (Some e)
| NamespaceNotDeleted st1 st2 st3 r new sleeps e :
    setUpdateHandlerError env = None ->
    result (cacheRefreshSleep env) = None ->
    deleteWorkflowExecutions env params st1 = ((r, None), st2) ->
    trace st2 = trace st1 ++ new ->
    awaitNamespaceDeleteDelay (delayWaits env) 0 st2 = (tt, st3) ->
    trace st3 = trace st2 ++ sleeps ->
    result (deleteNamespace env) = Some e ->
    Body env params
      (Sleep namespaceCacheRefreshDelay :: new ++ sleeps
       ++ [DeleteNamespaceActivity
             (NamespaceID (DeleteExecutionsParams_ params))
             (Namespace (DeleteExecutionsParams_ params))])
      r
      (Some (Errorf ErrUnableToExecuteActivity "DeleteNamespaceActivity" e))
| NamespaceIsDeleted st1 st2 st3 r new sleeps :
    setUpdateHandlerError env = None ->
    result (cacheRefreshSleep env) = None ->
    deleteWorkflowExecutions env params st1 = ((r, None), st2) ->
    trace st2 = trace st1 ++ new ->
    awaitNamespaceDeleteDelay (delayWaits env) 0 st2 = (tt, st3) ->
    trace st3 = trace st2 ++ sleeps ->
    result (deleteNamespace env) = None ->
    Body env params
      (Sleep namespaceCacheRefreshDelay :: new ++ sleeps
       ++ [DeleteNamespaceActivity
             (NamespaceID (DeleteExecutionsParams_ params))
             (Namespace (DeleteExecutionsParams_ params))])
      {| DeleteSuccessCount := DeleteSuccessCount r;
         DeleteErrorCount := DeleteErrorCount r;
         NamespaceDeleted := true |}
      None.

(** What a call of Step 1 is called with, for given parameters and
    outcomes. *)
Definition stepCall (env : Env) (params : ReclaimResourcesParams) (c : Call)
  : Prop :=
  let dp := DeleteExecutionsParams_ params in
  match c with
  | GetVersion changeID minSupported maxSupported =>
      changeID = "remove-std-vis" /\ minSupported = DefaultVersion /\
      maxSupported = 0
  | IsAdvancedVisibilityActivity ns =>
      ns = Namespace dp /\ removeStdVisVersion env = DefaultVersion
  | CountExecutionsAdvVisibilityActivity nsID ns =>
      nsID = NamespaceID dp /\ ns = Namespace dp
  | DeleteExecutionsWorkflow workflowID p =>
      workflowID
      = (deleteexecutionsWorkflowName ++ "/" ++ Namespace dp)%string /\
      p = dp /\
      exists count, result (countExecutions env) = inr count /\ count <> 0
  | EnsureNoExecutionsAdvVisibilityActivity nsID ns notDeletedCount =>
      nsID = NamespaceID dp /\ ns = Namespace dp /\
      exists der, result (deleteExecutions env) = inr der /\
                  notDeletedCount = ErrorCount der
  | _ => False
  end.

(** Two runs are given the same answers: the same results call by call,
    whatever is delivered meanwhile and whatever the boolean that the
    visibility probe answers. *)
Definition sameProbe (r r' : error + bool) : Prop :=
  match r, r' with
  | inl e, inl e' => e = e'
  | inr _, inr _ => True
  | _, _ => False
  end.

Definition sameResults (env env' : Env) : Prop :=
  setUpdateHandlerError env = setUpdateHandlerError env' /\
  result (cacheRefreshSleep env) = result (cacheRefreshSleep env') /\
  removeStdVisVersion env = removeStdVisVersion env' /\
  sameProbe (result (isAdvancedVisibility env))
    (result (isAdvancedVisibility env')) /\
  result (countExecutions env) = result (countExecutions env') /\
  result (deleteExecutions env) = result (deleteExecutions env') /\
  result (ensureNoExecutions env) = result (ensureNoExecutions env') /\
  result (deleteNamespace env) = result (deleteNamespace env').

(** Two computations return the same value from any two states. *)
Definition sameValue {A} (m m' : Workflow A) : Prop :=
  forall st st', fst (m st) = fst (m' st').

(** The number of times the handler cancelled a sleep. *)
Fixpoint cancellations (l : list UpdateOutcome) : nat :=
  match l with
  | [] => 0
  | CancelDeleteDelay _ :: rest => S (cancellations rest)
  | _ :: rest => cancellations rest
  end.

End Workflow.

(** ** Sample inputs *)

(** [time.ParseDuration] on the strings used below. *)
Definition sampleParseDuration (s : string) : option Duration :=
  if String.eqb s "0" then Some 0
  else if String.eqb s "1h" then Some Hour
  else if String.eqb s "2h" then Some (2 * Hour)
  else if String.eqb s "3h" then Some (3 * Hour)
  else None.

Definition sampleDependencies : Dependencies :=
  {| Config := unit;
     ApplyDefaults := fun c => c;
     deleteexecutionsWorkflowName := "temporal-sys-delete-executions-workflow";
     ExecutionsStillExistErrType := "ExecutionsStillExist";
     NoProgressErrType := "NoProgress";
     NotDeletedExecutionsStillExistErrType := "NotDeletedExecutionsStillExist";
     ValidationErrorErrType := "ValidationError";
     ParseDuration := sampleParseDuration |}.

#[local] Existing Instance sampleDependencies.

Definition sampleParams (delay : Duration) : ReclaimResourcesParams :=
  {| DeleteExecutionsParams_ :=
       {| Namespace := "acme"; NamespaceID := "acme-id"; Config_ := tt |};
     NamespaceDeleteDelay := delay |}.

(** A result that comes back with no update delivered meanwhile. *)
Definition undisturbed {A} (a : A) : Await A :=
  {| delivered := []; result := a |}.

(** A run in which every call succeeds, up to the choices left open. *)
Definition sampleEnv (version : Version) (count : Z)
    (ensured : option error) (waits : list (list string)) : Env :=
  {| setUpdateHandlerError := None;
     cacheRefreshSleep := undisturbed None;
     removeStdVisVersion := version;
     isAdvancedVisibility := undisturbed (inr true);
     countExecutions := undisturbed (inr count);
     deleteExecutions :=
       undisturbed (inr {| SuccessCount := 3; ErrorCount := 2 |});
     ensureNoExecutions := undisturbed ensured;
     delayWaits := waits;
     deleteNamespace := undisturbed None |}.

(** What the ensure-no-executions activity reports when two executions are
    left: a non-retryable application error with the count as details. *)
Definition twoExecutionsLeft : error :=
  ActivityError
    (AppError {| Message := "executions still exist";
                 Type_ := "ExecutionsStillExist";
                 NonRetryable := true;
                 Details := [IntDetail 2] |}).

End ReclaimResources.

(** * Properties of [create_workflow_util.go] *)

Module ApiSpec.
Import Api.

(** Membership in an explicit list of calls, case by case. *)
Ltac in_calls :=
  repeat match goal with
         | Hin : In _ (_ :: _) |- _ =>
             destruct Hin as [Hin | Hin];
             [try discriminate Hin; try (injection Hin as <-) |]
         | Hin : In _ [] |- _ => contradiction
         end.

Section Properties.

Context {ms : Type} `{MutableState ms}.
Variable NewMutableState : Shard -> Namespace -> string -> string -> Z -> ms.
Variable EmptyVersion : int64.

(** [NewWorkflowWithSignal] is its first part followed by the eager
    dispatch. *)
Lemma NewWorkflowWithSignal_split shard ns wid rid req sig :
  NewWorkflowWithSignal NewMutableState shard ns wid rid req sig =
  bind (firstWorkflowTaskGenerated NewMutableState shard ns wid rid req sig)
    (fun '(scheduledEventID, s) =>
       if RequestEagerExecution (StartRequest req) && HasPendingWorkflowTask s
       then
         call (CallAddWorkflowTaskStartedEvent scheduledEventID
                 (RequestId (StartRequest req))
                 (TaskQueue (StartRequest req))
                 (Identity (StartRequest req)))
              (AddWorkflowTaskStartedEvent scheduledEventID
                 (RequestId (StartRequest req))
                 (TaskQueue (StartRequest req))
                 (Identity (StartRequest req)) s)
       else ret s).
Proof.
  unfold NewWorkflowWithSignal, firstWorkflowTaskGenerated.
  unfold CreateMutableState, call.
  destruct (SetHistoryTree _ _ _ _) as [e | s0]; [reflexivity |].
  cbn [bind].
  destruct (AddWorkflowExecutionStartedEvent _ _ _) as [e | [ev s1]];
    [reflexivity |].
  cbn [bind app].
  destruct sig as [sg |]; cbn [bind ret app].
  - destruct (String.eqb (SignalRequestId sg) ""); cbn [bind ret app];
      destruct (AddWorkflowExecutionSignaled _ _ _ _ _ _) as [e | [ev' s2]];
      cbn [bind ret app]; try reflexivity;
      destruct (GenerateFirstWorkflowTask _ _ _ _) as [l [e | [sid s3]]];
      cbn [bind ret app]; try reflexivity;
      destruct (RequestEagerExecution _ && HasPendingWorkflowTask s3);
      cbn; now rewrite <- ?app_assoc.
  - destruct (GenerateFirstWorkflowTask _ _ _ _) as [l [e | [sid s3]]];
      cbn [bind ret app]; try reflexivity;
      destruct (RequestEagerExecution _ && HasPendingWorkflowTask s3);
      cbn; now rewrite <- ?app_assoc.
Qed.

(** Nothing before the eager dispatch starts a workflow task. *)
Lemma firstWorkflowTaskGenerated_not_started shard ns wid rid req sig :
  existsb isAddWorkflowTaskStartedEvent
    (calls (firstWorkflowTaskGenerated NewMutableState shard ns wid rid
              req sig)) = false.
Proof.
  unfold firstWorkflowTaskGenerated, CreateMutableState,
    GenerateFirstWorkflowTask, call.
  destruct (SetHistoryTree _ _ _ _) as [e | s0]; [reflexivity |].
  cbn [bind].
  destruct (AddWorkflowExecutionStartedEvent _ _ _) as [e | [ev s1]];
    [reflexivity |].
  destruct sig as [sg |]; cbn [bind ret app].
  - destruct (String.eqb (SignalRequestId sg) ""); cbn [bind ret app];
      destruct (AddWorkflowExecutionSignaled _ _ _ _ _ _) as [e | [ev' s2]];
      cbn [bind ret app]; try reflexivity;
      destruct (ParentExecutionInfo_ req); reflexivity.
  - destruct (ParentExecutionInfo_ req); reflexivity.
Qed.

(** For a child execution the state reached after task generation has no
    pending workflow task, the scheduled event id is 0 and
    [AddFirstWorkflowTaskScheduled] was not called. *)
Lemma firstWorkflowTaskGenerated_child (laws : FirstTaskLaws NewMutableState)
    shard ns wid rid req sig p :
  ParentExecutionInfo_ req = Some p ->
  let m := firstWorkflowTaskGenerated NewMutableState shard ns wid rid
             req sig in
  existsb isAddFirstWorkflowTaskScheduled (calls m) = false /\
  forall sid s, outcome m = inr (sid, s) ->
                sid = 0 /\ HasPendingWorkflowTask s = false.
Proof.
  intros Hp. cbn zeta.
  unfold firstWorkflowTaskGenerated, CreateMutableState,
    GenerateFirstWorkflowTask, call.
  rewrite Hp.
  destruct (SetHistoryTree _ _ _ _) as [e | s0] eqn:E0;
    [split; [reflexivity | discriminate] |].
  cbn [bind].
  apply (tree_pending laws) in E0.
  rewrite (new_no_pending laws) in E0.
  destruct (AddWorkflowExecutionStartedEvent _ _ _) as [e | [ev s1]] eqn:E1;
    [split; [reflexivity | discriminate] |].
  apply (started_pending laws) in E1. rewrite E0 in E1.
  destruct sig as [sg |]; cbn [bind ret app].
  - destruct (String.eqb (SignalRequestId sg) ""); cbn [bind ret app];
      destruct (AddWorkflowExecutionSignaled _ _ _ _ _ _)
        as [e | [ev' s2]] eqn:E2;
      cbn [bind ret app]; (split; [reflexivity |]);
      cbn; try discriminate; intros sid s [= <- <-];
      apply (signaled_pending laws) in E2;
      rewrite ?(requested_pending laws) in E2; split; congruence.
  - split; [reflexivity |]. cbn. intros sid s [= <- <-]. now split.
Qed.

(** C2 ([NewWorkflowVersionCheck]): for every pair of a prior last-write
    version and a new mutable state, the check fails if and only if the
    prior version is not the empty-version sentinel and is strictly greater
    than the state's current version; when it fails, the error is the
    namespace-not-active error naming the current cluster and the cluster
    of the prior version, and otherwise the check succeeds. *)
Theorem NewWorkflowVersionCheck_fails_iff (shard : Shard)
    (prevLastWriteVersion : int64) (newMutableState : ms) :
  let r := NewWorkflowVersionCheck EmptyVersion shard prevLastWriteVersion
             newMutableState in
  (r <> None <->
     prevLastWriteVersion <> EmptyVersion /\
     prevLastWriteVersion > GetCurrentVersion newMutableState) /\
  (r = None \/
   r = Some (NamespaceNotActive
               (NamespaceName (GetNamespaceEntry newMutableState))
               (GetCurrentClusterName (GetClusterMetadata shard))
               (ClusterNameForFailoverVersion (GetClusterMetadata shard)
                  (IsGlobalNamespace (GetNamespaceEntry newMutableState))
                  prevLastWriteVersion))).
Proof.
  cbn zeta. unfold NewWorkflowVersionCheck.
  destruct (Z.eqb_spec prevLastWriteVersion EmptyVersion) as [-> | Hne].
  - split; [| now left]. split; [congruence | intros [Hc _]; congruence].
  - destruct (Z.gtb_spec prevLastWriteVersion
                (GetCurrentVersion newMutableState)) as [Hgt | Hle].
    + split; [| now right]. split; [intros _; split; [assumption | lia] |
                                    discriminate].
    + split; [| now left]. split; [congruence | intros [_ Hc]; lia].
Qed.

(** The eager dispatch, once task generation has returned. *)
Lemma eager_dispatch_after_generation (laws : FirstTaskLaws NewMutableState)
    shard ns wid rid req sig log scheduledEventID s
    (generated :
       firstWorkflowTaskGenerated NewMutableState shard ns wid rid req sig
       = (log, inr (scheduledEventID, s))) :
  let m := NewWorkflowWithSignal NewMutableState shard ns wid rid req sig in
  let eager :=
    ParentExecutionInfo_ req = None /\
    HasPendingWorkflowTask s = true /\
    RequestEagerExecution (StartRequest req) = true in
  (existsb isAddWorkflowTaskStartedEvent (calls m) = true <-> eager) /\
  (eager ->
   m = (log ++ [CallAddWorkflowTaskStartedEvent scheduledEventID
                  (RequestId (StartRequest req))
                  (TaskQueue (StartRequest req))
                  (Identity (StartRequest req))],
        AddWorkflowTaskStartedEvent scheduledEventID
          (RequestId (StartRequest req)) (TaskQueue (StartRequest req))
          (Identity (StartRequest req)) s)) /\
  (~ eager -> m = (log, inr s)).
Proof.
  cbn zeta.
  pose proof (firstWorkflowTaskGenerated_not_started shard ns wid rid
                req sig) as Hpre.
  assert (Hchild : forall p, ParentExecutionInfo_ req = Some p ->
                             HasPendingWorkflowTask s = false).
  { intros p Hp.
    destruct (firstWorkflowTaskGenerated_child laws shard ns wid rid req
                sig p Hp) as [_ Hs].
    rewrite generated in Hs. now destruct (Hs _ _ eq_refl). }
  rewrite NewWorkflowWithSignal_split, generated in *.
  cbn [calls fst] in Hpre. unfold call, ret. cbn [bind].
  destruct (RequestEagerExecution (StartRequest req)) eqn:Ee;
    destruct (HasPendingWorkflowTask s) eqn:Ep; cbn [andb calls fst].
  - destruct (ParentExecutionInfo_ req) as [p |] eqn:Hp.
    + specialize (Hchild p eq_refl). discriminate.
    + rewrite existsb_app, Hpre. cbn. repeat split; auto.
      intros Hn. exfalso. apply Hn. now repeat split.
  - rewrite app_nil_r, Hpre. repeat split; try discriminate;
      intros (_ & Hc & _); discriminate.
  - rewrite app_nil_r, Hpre. repeat split; try discriminate;
      intros (_ & _ & Hc); discriminate.
  - rewrite app_nil_r, Hpre. repeat split; try discriminate;
      intros (_ & Hc & _); discriminate.
Qed.

(** C4 ([NewWorkflowWithSignal]): the first workflow task is started (the
    one call of [AddWorkflowTaskStartedEvent]) if and only if task generation
    returned, no parent execution is present, a pending workflow task exists
    in the state left by task generation and eager execution was requested.
    In that case the call is made last, with the scheduled event id that task
    generation returned and the request id, task queue and identity of the
    start request, on the state task generation left, and what it returns is
    what [NewWorkflowWithSignal] returns.  In every other case in which task
    generation returned, the state is handed back as task generation left
    it, the task merely scheduled or absent; and when task generation or a
    call before it failed, that error is returned. *)
Theorem eager_dispatch_iff (laws : FirstTaskLaws NewMutableState)
    shard ns wid rid req sig :
  let m := NewWorkflowWithSignal NewMutableState shard ns wid rid req sig in
  let generated :=
    firstWorkflowTaskGenerated NewMutableState shard ns wid rid req sig in
  let eager (s : ms) :=
    ParentExecutionInfo_ req = None /\
    HasPendingWorkflowTask s = true /\
    RequestEagerExecution (StartRequest req) = true in
  (existsb isAddWorkflowTaskStartedEvent (calls m) = true <->
   exists scheduledEventID s,
     outcome generated = inr (scheduledEventID, s) /\ eager s) /\
  (forall scheduledEventID s,
     outcome generated = inr (scheduledEventID, s) -> eager s ->
     m = (calls generated
          ++ [CallAddWorkflowTaskStartedEvent scheduledEventID
                (RequestId (StartRequest req))
                (TaskQueue (StartRequest req))
                (Identity (StartRequest req))],
          AddWorkflowTaskStartedEvent scheduledEventID
            (RequestId (StartRequest req)) (TaskQueue (StartRequest req))
            (Identity (StartRequest req)) s)) /\
  (forall scheduledEventID s,
     outcome generated = inr (scheduledEventID, s) -> ~ eager s ->
     m = (calls generated, inr s)) /\
  (forall e, outcome generated = inl e -> m = (calls generated, inl e)).
Proof.
  cbn zeta.
  destruct (firstWorkflowTaskGenerated NewMutableState shard ns wid rid
              req sig) as [log [e | [sid s]]] eqn:G;
    cbn [outcome calls fst snd].
  - pose proof (firstWorkflowTaskGenerated_not_started shard ns wid rid
                  req sig) as Hpre.
    rewrite NewWorkflowWithSignal_split, G in *. cbn in *. rewrite Hpre.
    split; [| split; [| split]]; try discriminate.
    + split; [discriminate | intros (sid & s & Hc & _); discriminate].
    + intros e' [= <-]. reflexivity.
  - destruct (eager_dispatch_after_generation laws shard ns wid rid req sig
                log sid s G) as (Hiff & Heager & Hnot).
    split; [| split; [| split]]; try discriminate.
    + rewrite Hiff. split.
      * intros He. now exists sid, s.
      * now intros (sid' & s' & [= <- <-] & He).
    + intros sid' s' [= <- <-]. exact Heager.
    + intros sid' s' [= <- <-]. exact Hnot.
Qed.

(** C9 ([NewWorkflowWithSignal], signal-with-start): once the started
    event is recorded, [AddSignalRequested] is called only with the
    signal's own request id and only when that id is not the empty string;
    with an empty request id no marker is recorded, and in both cases
    [AddWorkflowExecutionSignaled] is still called with the signal.  The
    signaled event is added to the state that carries the marker, or to the
    state left by the started event when the request id is empty; if adding
    it fails, that error is returned at once, and otherwise the state it
    returns is the one on which initialization goes on, with task
    generation and the eager dispatch. *)
Theorem signal_requested_only_with_request_id
    shard ns wid rid req sg s0 startEvent s1
    (created :
       SetHistoryTree (WorkflowExecutionTimeout (StartRequest req))
         (WorkflowRunTimeout (StartRequest req)) rid
         (NewMutableState shard ns wid rid (Now shard)) = inr s0)
    (started :
       AddWorkflowExecutionStartedEvent
         {| WorkflowId := wid; RunId := rid |} req s0
       = inr (startEvent, s1)) :
  let m := NewWorkflowWithSignal NewMutableState shard ns wid rid
             req (Some sg) in
  let log := calls m in
  let marked :=
    if String.eqb (SignalRequestId sg) "" then s1
    else AddSignalRequested (SignalRequestId sg) s1 in
  let signaled :=
    AddWorkflowExecutionSignaled (SignalName sg) (SignalInput sg)
      (SignalIdentity sg) (SignalHeader sg) (SignalLinks sg) marked in
  let before :=
    [CallSetHistoryTree rid;
     CallAddWorkflowExecutionStartedEvent
       {| WorkflowId := wid; RunId := rid |}]
    ++ (if String.eqb (SignalRequestId sg) "" then []
        else [CallAddSignalRequested (SignalRequestId sg)])
    ++ [CallAddWorkflowExecutionSignaled (SignalName sg)] in
  (forall id, In (CallAddSignalRequested id) log <->
              id = SignalRequestId sg /\ SignalRequestId sg <> "") /\
  (SignalRequestId sg = "" -> existsb isAddSignalRequested log = false) /\
  In (CallAddWorkflowExecutionSignaled (SignalName sg)) log /\
  (forall e, signaled = inl e -> m = (before, inl e)) /\
  (forall ev s2, signaled = inr (ev, s2) ->
     m = bind (before, inr s2)
           (fun s =>
              bind (GenerateFirstWorkflowTask s (ParentExecutionInfo_ req)
                      startEvent (RequestEagerExecution (StartRequest req)))
                (fun '(scheduledEventID, s') =>
                   if RequestEagerExecution (StartRequest req)
                      && HasPendingWorkflowTask s'
                   then
                     call (CallAddWorkflowTaskStartedEvent scheduledEventID
                             (RequestId (StartRequest req))
                             (TaskQueue (StartRequest req))
                             (Identity (StartRequest req)))
                          (AddWorkflowTaskStartedEvent scheduledEventID
                             (RequestId (StartRequest req))
                             (TaskQueue (StartRequest req))
                             (Identity (StartRequest req)) s')
                   else ret s'))).
Proof.
  cbn zeta.
  match goal with
  | |- ?A /\ ?B /\ ?C /\ ?D =>
      enough (Hon : D); [enough (Hcalls : A /\ B /\ C) by tauto; clear Hon |]
  end.
  - unfold NewWorkflowWithSignal, CreateMutableState,
      GenerateFirstWorkflowTask, call.
    rewrite created. cbn [bind]. rewrite started. cbn [bind ret app].
    destruct (String.eqb_spec (SignalRequestId sg) "") as [He | Hne];
      cbn [bind ret app];
      destruct (AddWorkflowExecutionSignaled _ _ _ _ _ _) as [e | [ev' s2]];
      cbn [bind ret app calls fst];
      try (destruct (ParentExecutionInfo_ req); cbn [bind ret app];
           [| destruct (AddFirstWorkflowTaskScheduled _ _ _)
                as [e | [sid s3]]; cbn [bind ret app]];
           try destruct (RequestEagerExecution _ && HasPendingWorkflowTask _);
           cbn [bind ret app calls fst]).
    all: split;
      [ intros id; split;
        [ intros Hin; in_calls; (congruence || now split)
        | intros [-> Hn]; (congruence || (cbn; tauto)) ]
      | split; [ intros He'; (reflexivity || congruence) | cbn; tauto ] ].
  - unfold NewWorkflowWithSignal, CreateMutableState, call.
    rewrite created. cbn [bind]. rewrite started. cbn [bind ret app].
    destruct (String.eqb (SignalRequestId sg) ""); cbn [bind ret app];
      (split; [intros e Hs | intros ev s2 Hs]); rewrite Hs;
      cbn [bind ret app]; try reflexivity;
      destruct (GenerateFirstWorkflowTask _ _ _ _) as [l [e | [sid s3]]];
      cbn [bind ret app]; try reflexivity;
      destruct (RequestEagerExecution _ && HasPendingWorkflowTask s3);
      cbn; now rewrite <- ?app_assoc.
Qed.

(** C10 ([GenerateFirstWorkflowTask], child execution): when a parent
    execution is present the function calls nothing on the mutable state
    and returns event id 0, the state untouched and no error, whatever the
    eager flag; within [NewWorkflowWithSignal] neither
    [AddFirstWorkflowTaskScheduled] nor [AddWorkflowTaskStartedEvent] is
    then called, and the state returned has no pending workflow task. *)
Theorem child_has_no_first_workflow_task
    (laws : FirstTaskLaws NewMutableState) :
  (forall s p startEvent bypassTaskGeneration,
      GenerateFirstWorkflowTask s (Some p) startEvent bypassTaskGeneration
      = ([], inr (0, s))) /\
  (forall shard ns wid rid sr p backoff sig,
      let req := {| StartRequest := sr; ParentExecutionInfo_ := Some p;
                    FirstWorkflowTaskBackoff := backoff |} in
      let m := NewWorkflowWithSignal NewMutableState shard ns wid rid
                 req sig in
      existsb isAddFirstWorkflowTaskScheduled (calls m) = false /\
      existsb isAddWorkflowTaskStartedEvent (calls m) = false /\
      forall s, outcome m = inr s -> HasPendingWorkflowTask s = false).
Proof.
  split; [reflexivity |].
  intros shard ns wid rid sr p backoff sig req m.
  destruct (firstWorkflowTaskGenerated_child laws shard ns wid rid req sig
              p eq_refl) as [Hfirst Hout].
  pose proof (firstWorkflowTaskGenerated_not_started shard ns wid rid
                req sig) as Hpre.
  subst m. rewrite NewWorkflowWithSignal_split.
  destruct (firstWorkflowTaskGenerated _ _ _ _ _ _ _)
    as [log [e | [sid s]]].
  - cbn in *. now rewrite Hfirst, Hpre.
  - destruct (Hout sid s eq_refl) as [-> Hs].
    cbn [calls fst outcome snd] in *. cbn [bind].
    rewrite Hs, andb_false_r. cbn.
    rewrite app_nil_r, Hfirst, Hpre.
    repeat split. now intros s' [= <-].
Qed.

End Properties.

(** The reference mutable state obeys the laws of the first unit of work. *)
Lemma RefMutableState_laws : FirstTaskLaws refNewMutableState.
Proof.
  split.
  - reflexivity.
  - now intros et rt rid s s' [= <-].
  - now intros ex req s ev s' [= <- <-].
  - reflexivity.
  - now intros n i idt h l s ev s' [= <- <-].
Qed.

(** C8 ([ValidateStart]), as the code has it: the memo-size metric is
    recorded for every request whose input-size check passes, also when the
    memo-size check then fails, since it is emitted before that check; when
    the input-size check fails, [ValidateStart] returns that error at once
    and emits nothing beyond what the failed check emitted. *)
Theorem memo_size_recorded_once_input_passes
    (check : Z -> Z -> Z -> string -> string -> string -> string -> string ->
             list Emission * option error)
    shard ns wid inputSize memoSize op :
  let config := GetConfig shard in
  let name := NamespaceName ns in
  let inputCheck :=
    check inputSize (BlobSizeLimitWarn config name)
      (BlobSizeLimitError config name) name wid "" op op in
  let r := ValidateStart check shard ns wid inputSize memoSize op in
  (snd inputCheck = None ->
   In (RecordMetric MemoSize op memoSize) (fst r) /\
   (snd r = None \/ snd r = Some ErrMemoSizeExceedsLimit)) /\
  (forall err, snd inputCheck = Some err -> r = (fst inputCheck, Some err)).
Proof.
  cbn zeta. unfold ValidateStart.
  destruct (check inputSize _ _ _ _ _ _ _) as [emitted1 [err1 |]];
    cbn [fst snd].
  - split; [discriminate | now intros err [= <-]].
  - split; [intros _ | discriminate].
    destruct (check memoSize _ _ _ _ _ _ _) as [emitted2 [err2 |]];
      cbn [fst snd]; (split; [| auto]);
      apply in_or_app; right; now left.
Qed.

(** A memo above its limit behind an input within its limit: the metric is
    recorded and the memo error returned. *)
Lemma memo_size_recorded_once_input_passes_witness :
  In (RecordMetric MemoSize "start" 300)
     (fst (ValidateStart CheckEventBlobSizeLimit sampleShard sampleNamespace
             "wf" 100 300 "start")) /\
  snd (ValidateStart CheckEventBlobSizeLimit sampleShard sampleNamespace
         "wf" 100 300 "start") = Some ErrMemoSizeExceedsLimit.
Proof.
  split.
  - apply (proj1 (memo_size_recorded_once_input_passes
                    CheckEventBlobSizeLimit sampleShard sampleNamespace
                    "wf" 100 300 "start")).
    reflexivity.
  - reflexivity.
Defined.

(** C8 as stated fails: an input above its error limit is rejected by the
    first check, and no memo-size metric is recorded for that request. *)
Lemma memo_size_not_recorded_when_input_too_large :
  ValidateStart CheckEventBlobSizeLimit sampleShard sampleNamespace
    "wf" 4096 300 "start"
  = ([RecordMetric EventBlobSize "start" 4096; LogWarn "acme" "wf" "start"],
     Some ErrBlobSizeExceedsLimit) /\
  existsb isMemoSizeMetric
    (fst (ValidateStart CheckEventBlobSizeLimit sampleShard sampleNamespace
            "wf" 4096 300 "start")) = false.
Proof. split; reflexivity. Qed.

(** An eager start without parent on the reference state: the first workflow
    task is started, and in the state returned it is the task scheduled as
    event 2, with the started event last in the history. *)
Lemma eager_dispatch_iff_witness :
  let m := NewWorkflowWithSignal refNewMutableState sampleShard
             sampleNamespace "wf" "run" (sampleRequest true None) None in
  existsb isAddWorkflowTaskStartedEvent (calls m) = true /\
  exists s,
    outcome m = inr s /\ refTask s = TaskStarted 2 /\
    map EventKind (refHistory s)
    = [WorkflowExecutionStarted; WorkflowTaskScheduled; WorkflowTaskStarted].
Proof.
  cbn zeta.
  destruct (eager_dispatch_iff refNewMutableState RefMutableState_laws
              sampleShard sampleNamespace "wf" "run"
              (sampleRequest true None) None)
    as (Hiff & Heager & _ & _).
  split.
  - apply (proj2 Hiff). eexists _, _. split; [reflexivity |]. repeat split.
  - rewrite (Heager _ _ eq_refl (conj eq_refl (conj eq_refl eq_refl))).
    eexists. split; [reflexivity |]. split; reflexivity.
Defined.

(** Signal-with-start with an empty request id on the reference state: no
    marker is recorded, and the signaled event follows the started event in
    the history of the state returned. *)
Lemma signal_requested_only_with_request_id_witness :
  let m := NewWorkflowWithSignal refNewMutableState sampleShard
             sampleNamespace "wf" "run" (sampleRequest false None)
             (Some (sampleSignal "")) in
  existsb isAddSignalRequested (calls m) = false /\
  In (CallAddWorkflowExecutionSignaled "wake") (calls m) /\
  exists s,
    outcome m = inr s /\ refSignalRequested s = [] /\
    map EventKind (refHistory s)
    = [WorkflowExecutionStarted; WorkflowExecutionSignaled;
       WorkflowTaskScheduled].
Proof.
  cbn zeta.
  pose proof (signal_requested_only_with_request_id refNewMutableState
                sampleShard sampleNamespace "wf" "run"
                (sampleRequest false None) (sampleSignal "")
                _ _ _ eq_refl eq_refl) as (_ & Hnone & Hsignaled & _ & Hon).
  cbn zeta in Hon.
  split; [exact (Hnone eq_refl) |]. split; [exact Hsignaled |].
  rewrite (Hon _ _ eq_refl).
  eexists. split; [reflexivity |]. split; reflexivity.
Defined.

(** A child execution asking for eager dispatch on the reference state. *)
Lemma child_has_no_first_workflow_task_witness :
  existsb isAddWorkflowTaskStartedEvent
    (calls (NewWorkflowWithSignal refNewMutableState sampleShard
              sampleNamespace "wf" "run"
              (sampleRequest true (Some sampleParent)) None)) = false.
Proof.
  exact (proj1 (proj2 (proj2 (child_has_no_first_workflow_task
                                refNewMutableState RefMutableState_laws)
                         sampleShard sampleNamespace "wf" "run"
                         (sampleStart true) sampleParent None None))).
Defined.

End ApiSpec.

(** * Properties of [reclaimresources/workflow.go] *)

Module ReclaimResourcesSpec.
Import ReclaimResources.

Section Properties.

Context {deps : Dependencies}.

(** ** The update handler leaves the trace alone *)

Lemma deliver_inv request st u st' :
  deliver request st = (u, st') ->
  trace st' = trace st /\ cancelDeleteDelay st' = cancelDeleteDelay st.
Proof.
  unfold deliver, updateHandler, wbind, note, setNamespaceDeleteDelay,
    getNamespaceDeleteDelay, getCancelDeleteDelay.
  destruct (updateValidator request); cbn.
  - intros [= <- <-]. now split.
  - destruct (cancelDeleteDelay st); cbn; intros [= <- <-]; now split.
Qed.

Lemma deliverAll_inv requests : forall st u st',
  deliverAll requests st = (u, st') ->
  trace st' = trace st /\ cancelDeleteDelay st' = cancelDeleteDelay st.
Proof.
  induction requests as [| r rest IH]; intros st u st'; cbn.
  - intros [= <- <-]. now split.
  - unfold wbind. destruct (deliver r st) as [[] st1] eqn:E1.
    intros E2. apply deliver_inv in E1. apply IH in E2.
    destruct E1 as [E1 E1'], E2 as [E2 E2']. split; congruence.
Qed.

Lemma await_inv {A} (c : Call) (a : Await A) st r st' :
  await c a st = (r, st') ->
  r = result a /\ trace st' = trace st ++ [c] /\
  cancelDeleteDelay st' = cancelDeleteDelay st.
Proof.
  unfold await, wbind, wret, emit.
  destruct (deliverAll _ _) as [[] st1] eqn:E. intros [= <- <-].
  apply deliverAll_inv in E. cbn in E. now destruct E.
Qed.

Lemma wbind_inv {A B} (m : Workflow A) (f : A -> Workflow B) st b st' :
  wbind m f st = (b, st') ->
  exists a st1, m st = (a, st1) /\ f a st1 = (b, st').
Proof.
  unfold wbind. destruct (m st) as [a st1]. intros E. now exists a, st1.
Qed.

End Properties.

(** Inversion of a run [m st = (a, st')], one bind at a time; every
    suspension point leaves an equation for the trace of the state it
    reaches. *)
Ltac winv H :=
  lazymatch type of H with
  | wbind _ _ _ = _ =>
      let a := fresh "a" in
      let s := fresh "st" in
      let H1 := fresh "R" in
      apply wbind_inv in H; destruct H as (a & s & H1 & H);
      winv H1; winv H
  | wret _ _ = _ => unfold wret in H; injection H as <- <-
  | emit _ _ = _ => unfold emit in H; injection H as <- <-
  | setNamespaceDeleteDelay _ _ = _ =>
      unfold setNamespaceDeleteDelay in H; injection H as <- <-
  | setCancelDeleteDelay _ _ = _ =>
      unfold setCancelDeleteDelay in H; injection H as <- <-
  | getNamespaceDeleteDelay _ = _ =>
      unfold getNamespaceDeleteDelay in H; injection H as <- <-
  | getCancelDeleteDelay _ = _ =>
      unfold getCancelDeleteDelay in H; injection H as <- <-
  | note _ _ = _ => unfold note in H; injection H as <- <-
  | await _ _ _ = _ =>
      let Et := fresh "Et" in
      let Ec := fresh "Ec" in
      apply await_inv in H; destruct H as (-> & Et & Ec)
  | (match ?x with _ => _ end) _ = _ =>
      let E := fresh "E" in destruct x eqn:E; winv H
  | _ => idtac
  end.

(** Rewrite the goal with the trace equations collected by [winv]. *)
Ltac traces :=
  repeat match goal with
         | Et : trace ?s = _ |- context [trace ?s] => rewrite Et
         end;
  cbn [trace]; rewrite <- ?app_assoc; cbn [app].

Section StepOne.

Context {deps : Dependencies}.

(** C7 ([deleteWorkflowExecutions]): when the count-executions activity is
    reached (the version marker is not the default one, or the visibility
    probe succeeded) and returns 0, the step returns the zero result without
    error, having called the count activity and never the bulk-deletion
    child workflow. *)
Theorem no_executions_no_bulk_deletion env params st
    (reached :
       removeStdVisVersion env <> DefaultVersion \/
       exists b, result (isAdvancedVisibility env) = inr b)
    (none : result (countExecutions env) = inr 0) :
  fst (deleteWorkflowExecutions env params st)
  = ({| DeleteSuccessCount := 0; DeleteErrorCount := 0;
        NamespaceDeleted := false |}, None) /\
  exists new,
    trace (snd (deleteWorkflowExecutions env params st)) = trace st ++ new /\
    existsb isCountExecutions new = true /\
    existsb isDeleteExecutionsWorkflow new = false.
Proof.
  destruct (deleteWorkflowExecutions env params st) as [out st'] eqn:R.
  unfold deleteWorkflowExecutions in R. winv R; cbn [fst snd].
  all: try (destruct reached as [Hne | [b Hb]];
            [apply Z.eqb_eq in E; contradiction | congruence]).
  all: try discriminate none.
  all: injection none as ->; try discriminate.
  all: (split; [reflexivity |]); traces; eexists; (split; [reflexivity |]);
    now cbn.
Qed.

(** Every call of Step 1 is a call of Step 1. *)
Lemma deleteWorkflowExecutions_stage env params st out st' :
  deleteWorkflowExecutions env params st = (out, st') ->
  exists new, trace st' = trace st ++ new /\
              Forall (fun c => stage c = 1%nat) new.
Proof.
  intros R. unfold deleteWorkflowExecutions in R. winv R.
  all: traces; eexists; (split; [reflexivity |]);
    repeat (constructor; try reflexivity).
Qed.

(** Step 1 never reports the namespace as deleted. *)
Lemma deleteWorkflowExecutions_not_deleted env params st r err st' :
  deleteWorkflowExecutions env params st = ((r, err), st') ->
  NamespaceDeleted r = false.
Proof.
  intros R. unfold deleteWorkflowExecutions in R. winv R; reflexivity.
Qed.

(** The delay loop only sleeps. *)
Lemma awaitNamespaceDeleteDelay_stage waits : forall wait st u st',
  awaitNamespaceDeleteDelay waits wait st = (u, st') ->
  exists new, trace st' = trace st ++ new /\
              Forall (fun c => stage c = 2%nat) new.
Proof.
  induction waits as [| requests rest IH]; intros wait st u st' R;
    cbn [awaitNamespaceDeleteDelay] in R;
    destruct (namespaceDeleteDelay st >? 0).
  - winv R. cbn [trace]. eexists. split; [reflexivity |].
    repeat constructor.
  - injection R as <- <-. exists []. now rewrite app_nil_r.
  - winv R.
    apply IH in R as (new & Enew & Hnew).
    match goal with
    | Hd : deliverAll _ _ = _ |- _ => apply deliverAll_inv in Hd as [Et _]
    end.
    cbn [trace] in Et.
    rewrite Enew, Et, <- app_assoc. eexists. split; [reflexivity |].
    constructor; [reflexivity | assumption].
  - injection R as <- <-. exists []. now rewrite app_nil_r.
Qed.

Lemma deferredMetrics_stage r st u st' :
  deferredMetrics r st = (u, st') ->
  exists new, trace st' = trace st ++ new /\
              Forall (fun c => stage c = 4%nat) new.
Proof.
  intros R. unfold deferredMetrics in R. winv R.
  all: cbn [trace]; rewrite <- ?app_assoc; eexists;
    (split; [try reflexivity; now rewrite app_nil_r |]);
    repeat (constructor; try reflexivity).
Qed.

End StepOne.

(** Run the next part of the workflow that is ready to run, in the goal. *)
Ltac run_step :=
  cbn beta iota zeta;
  match goal with
  | |- context [await ?c ?a ?s] =>
      let E := fresh "Ra" in
      let Et := fresh "Et" in
      destruct (await c a s) as [? ?] eqn:E;
      apply await_inv in E as (-> & Et & _); cbn [trace] in Et
  | |- context [deleteWorkflowExecutions ?e ?p ?s] =>
      let E := fresh "Rstep" in
      destruct (deleteWorkflowExecutions e p s) as [[? ?] ?] eqn:E
  | |- context [awaitNamespaceDeleteDelay ?w ?n ?s] =>
      let E := fresh "Rloop" in
      destruct (awaitNamespaceDeleteDelay w n s) as [[] ?] eqn:E;
      let sleeps := fresh "sleeps" in
      let Eloop := fresh "Eloop" in
      let Floop := fresh "Floop" in
      apply awaitNamespaceDeleteDelay_stage in E as (sleeps & Eloop & Floop)
  | |- context [deferredMetrics ?r ?s] =>
      let E := fresh "Rdefer" in
      destruct (deferredMetrics r s) as [[] ?] eqn:E;
      let counters := fresh "counters" in
      let Edefer := fresh "Edefer" in
      let Fdefer := fresh "Fdefer" in
      apply deferredMetrics_stage in E as (counters & Edefer & Fdefer)
  | |- context [match result ?a with Some _ => _ | None => _ end] =>
      let E := fresh "E" in destruct (result a) eqn:E
  | |- context [match ?o with Some _ => _ | None => _ end] =>
      is_var o; destruct o
  end.

Section Run.

Context {deps : Dependencies}.

(** The shape of a run, seen from Step 1. *)
Lemma run_stages env params :
  match beforeDeleteWorkflowExecutions env params with
  | None =>
      Forall (fun c => stage c = 0 \/ stage c = 4)%nat
        (trace (snd (run env params))) /\
      snd (fst (run env params)) <> None
  | Some (p, st1) =>
      trace st1 = [Sleep namespaceCacheRefreshDelay] /\
      match deleteWorkflowExecutions env p st1 with
      | ((r, Some err), st2) =>
          fst (run env params) = (r, Some err) /\
          exists later,
            trace (snd (run env params)) = trace st2 ++ later /\
            Forall (fun c => stage c = 4%nat) later
      | ((r, None), st2) =>
          exists sleeps nsID ns later,
            trace (snd (run env params))
            = trace st2 ++ sleeps ++ DeleteNamespaceActivity nsID ns :: later /\
            Forall (fun c => stage c = 2%nat) sleeps /\
            Forall (fun c => stage c = 4%nat) later /\
            DeleteSuccessCount (fst (fst (run env params)))
            = DeleteSuccessCount r /\
            DeleteErrorCount (fst (fst (run env params)))
            = DeleteErrorCount r /\
            (NamespaceDeleted (fst (fst (run env params))) = true <->
             snd (fst (run env params)) = None)
      end
  end.
Proof.
  unfold beforeDeleteWorkflowExecutions, run, ReclaimResourcesWorkflow.
  destruct (validateParams params) as [p [invalid |]].
  - cbn. split; [constructor | discriminate].
  - unfold wbind, wret, setNamespaceDeleteDelay, setCancelDeleteDelay.
    cbn beta iota zeta.
    destruct (setUpdateHandlerError env) as [herr |].
    + run_step. cbn [fst snd]. split; [| discriminate].
      rewrite Edefer. cbn [trace app].
      eapply Forall_impl; [| exact Fdefer]. cbn. auto.
    + repeat run_step; cbn [fst snd trace app] in *.
      * split; [| discriminate].
        rewrite Edefer, Et. cbn [app]. constructor; [now left |].
        eapply Forall_impl; [| exact Fdefer]. cbn. auto.
      * repeat split; [assumption |]. exists counters. now split.
      * split; [assumption |].
        apply deleteWorkflowExecutions_not_deleted in Rstep.
        rewrite Edefer, Et0, Eloop, <- !app_assoc. cbn [app].
        do 4 eexists. split; [reflexivity |].
        repeat split; try assumption; try discriminate.
        congruence.
      * split; [assumption |].
        rewrite Edefer, Et0, Eloop, <- !app_assoc. cbn [app].
        do 4 eexists. split; [reflexivity |].
        repeat split; assumption.
Qed.

Lemma stage_not_deletion (l : list Call) :
  Forall (fun c => stage c <> 3%nat) l ->
  existsb isDeleteNamespaceActivity l = false.
Proof.
  induction 1 as [| c l Hc _ IH]; [reflexivity |].
  cbn. rewrite IH. now destruct c.
Qed.

Lemma stage_not_ensure (l : list Call) :
  Forall (fun c => stage c <> 1%nat) l ->
  existsb isEnsureNoExecutions l = false.
Proof.
  induction 1 as [| c l Hc _ IH]; [reflexivity |].
  cbn. rewrite IH. now destruct c.
Qed.

Lemma Forall_stage_neq (l : list Call) (P : nat -> Prop) (k : nat) :
  Forall (fun c => P (stage c)) l -> (forall n, P n -> n <> k) ->
  Forall (fun c => stage c <> k) l.
Proof. intros Hl HP. eapply Forall_impl; [| exact Hl]. cbn. auto. Qed.

Lemma isNotDeletedErrType_iff (t : string) :
  isNotDeletedErrType t = true <->
  t = ExecutionsStillExistErrType \/ t = NoProgressErrType \/
  t = NotDeletedExecutionsStillExistErrType.
Proof.
  unfold isNotDeletedErrType.
  rewrite !orb_true_iff, !String.eqb_eq. tauto.
Qed.

Lemma notDeletedCount_decoded (a : ApplicationError) :
  (if HasDetails a then decodeNotDeletedCount a else 0)
  = decodeNotDeletedCount a.
Proof.
  unfold HasDetails, decodeNotDeletedCount. now destruct (Details a).
Qed.

(** What Step 1 returns once the ensure-no-executions activity has failed
    with one of the three not-deleted application errors. *)
Lemma deleteWorkflowExecutions_not_deleted_error env params st out st'
    err appErr :
  deleteWorkflowExecutions env params st = (out, st') ->
  result (ensureNoExecutions env) = Some err ->
  asApplicationError err = Some appErr ->
  isNotDeletedErrType (Type_ appErr) = true ->
  exists new,
    trace st' = trace st ++ new /\
    (existsb isEnsureNoExecutions new = true ->
     exists der,
       result (deleteExecutions env) = inr der /\
       out = ({| DeleteSuccessCount := SuccessCount der;
                 DeleteErrorCount := ErrorCount der;
                 NamespaceDeleted := false |},
              Some (AppError
                      {| Message := Message appErr;
                         Type_ := Type_ appErr;
                         NonRetryable := false;
                         Details :=
                           [IntDetail (decodeNotDeletedCount appErr)] |}))).
Proof.
  intros R Hens Has Hty. unfold deleteWorkflowExecutions in R. winv R.
  all: traces; eexists; (split; [reflexivity |]); cbn;
    try discriminate; intros _.
  all: try discriminate Hens.
  all: injection Hens as ->; rewrite Has in *; try discriminate.
  all: match goal with
       | Hs : Some _ = Some _ |- _ => injection Hs as ->
       end;
    try congruence.
  all: eexists; (split; [reflexivity |]);
    unfold NewApplicationError; now rewrite notDeletedCount_decoded.
Qed.

(** A failure of Step 1 ends the run before the namespace is deleted. *)
Lemma run_stops_on_step_error env params p st1 r err st2 :
  beforeDeleteWorkflowExecutions env params = Some (p, st1) ->
  deleteWorkflowExecutions env p st1 = ((r, Some err), st2) ->
  fst (run env params) = (r, Some err) /\
  existsb isDeleteNamespaceActivity (trace (snd (run env params))) = false.
Proof.
  intros Hbefore R.
  pose proof (run_stages env params) as Hrun.
  rewrite Hbefore, R in Hrun.
  destruct Hrun as (Hst1 & Hres & later & Htrace & Hlater).
  split; [exact Hres |].
  apply deleteWorkflowExecutions_stage in R as (new & Hnew & Hstage).
  rewrite Htrace, Hnew, Hst1, !existsb_app.
  rewrite (stage_not_deletion new), (stage_not_deletion later).
  - reflexivity.
  - apply (Forall_stage_neq later (fun n => n = 4%nat));
      [assumption | intros n ->; discriminate].
  - apply (Forall_stage_neq new (fun n => n = 1%nat));
      [assumption | intros n ->; discriminate].
Qed.

(** C1 ([ReclaimResourcesWorkflow]): in every run, [DeleteNamespaceActivity]
    is called only if Step 1, [deleteWorkflowExecutions], was reached and
    returned without error, and then only after it returned; when Step 1
    returns an error the run ends with that error and its partial result,
    and [DeleteNamespaceActivity] is not called. *)
Theorem namespace_deleted_only_after_executions env params :
  (existsb isDeleteNamespaceActivity (trace (snd (run env params))) = true ->
   exists p st1 r st2 later,
     beforeDeleteWorkflowExecutions env params = Some (p, st1) /\
     deleteWorkflowExecutions env p st1 = ((r, None), st2) /\
     trace (snd (run env params)) = trace st2 ++ later /\
     existsb isDeleteNamespaceActivity (trace st2) = false) /\
  (forall p st1 r err st2,
     beforeDeleteWorkflowExecutions env params = Some (p, st1) ->
     deleteWorkflowExecutions env p st1 = ((r, Some err), st2) ->
     fst (run env params) = (r, Some err) /\
     existsb isDeleteNamespaceActivity (trace (snd (run env params)))
     = false).
Proof.
  pose proof (run_stages env params) as Hrun.
  destruct (beforeDeleteWorkflowExecutions env params) as [[p st1] |]
    eqn:Hbefore.
  - destruct Hrun as [Hst1 Hrun].
    destruct (deleteWorkflowExecutions env p st1) as [[r [err |]] st2] eqn:R.
    + destruct (run_stops_on_step_error env params p st1 r err st2
                  Hbefore R) as [Hres Hno].
      split; [rewrite Hno; discriminate |].
      intros p' st1' r' err' st2' [= <- <-] R'. rewrite R in R'.
      injection R' as <- <- <-. now split.
    + destruct Hrun as (sleeps & nsID & ns & later & Htrace & _).
      split; [| intros p' st1' r' err' st2' [= <- <-] R';
                rewrite R in R'; discriminate].
      intros _. exists p, st1, r, st2. eexists.
      split; [reflexivity |]. split; [exact R |]. split; [exact Htrace |].
      apply deleteWorkflowExecutions_stage in R as (new & Hnew & Hstage).
      rewrite Hnew, Hst1, existsb_app, (stage_not_deletion new);
        [reflexivity |].
      apply (Forall_stage_neq new (fun n => n = 1%nat));
        [assumption | intros n ->; discriminate].
  - destruct Hrun as [Hstage _].
    split; [| discriminate].
    rewrite stage_not_deletion; [discriminate |].
    apply (Forall_stage_neq _ (fun n => n = 0 \/ n = 4)%nat);
      [assumption | intros n [-> | ->]; discriminate].
Qed.

(** C3 ([ReclaimResourcesWorkflow], [deleteWorkflowExecutions]): when the
    ensure-no-executions activity has been called and failed with an
    application error of type executions-still-exist, no-progress or
    not-deleted-executions-still-exist, the workflow returns a retryable
    application error with the same message and type whose details are the
    not-deleted count decoded from the failure (0 when it carries none),
    together with the counts reported by the bulk deletion;
    [NamespaceDeleted] stays false and [DeleteNamespaceActivity] is not
    called. *)
Theorem residual_executions_error_is_retryable env params err appErr
    (called :
       existsb isEnsureNoExecutions (trace (snd (run env params))) = true)
    (failed : result (ensureNoExecutions env) = Some err)
    (application : asApplicationError err = Some appErr)
    (notDeleted :
       Type_ appErr = ExecutionsStillExistErrType \/
       Type_ appErr = NoProgressErrType \/
       Type_ appErr = NotDeletedExecutionsStillExistErrType) :
  exists der,
    result (deleteExecutions env) = inr der /\
    fst (run env params)
    = ({| DeleteSuccessCount := SuccessCount der;
          DeleteErrorCount := ErrorCount der;
          NamespaceDeleted := false |},
       Some (AppError
               {| Message := Message appErr;
                  Type_ := Type_ appErr;
                  NonRetryable := false;
                  Details := [IntDetail (decodeNotDeletedCount appErr)] |}))
    /\
    existsb isDeleteNamespaceActivity (trace (snd (run env params))) = false.
Proof.
  apply isNotDeletedErrType_iff in notDeleted.
  pose proof (run_stages env params) as Hrun.
  destruct (beforeDeleteWorkflowExecutions env params) as [[p st1] |]
    eqn:Hbefore.
  - destruct Hrun as [Hst1 Hrun].
    destruct (deleteWorkflowExecutions env p st1) as [[r oerr] st2] eqn:R.
    destruct (deleteWorkflowExecutions_not_deleted_error _ _ _ _ _ _ _
                R failed application notDeleted) as (new & Hnew & Hout).
    assert (Hin : existsb isEnsureNoExecutions new = true).
    { destruct oerr as [err' |].
      - destruct Hrun as (_ & later & Htrace & Hlater).
        rewrite Htrace, Hnew, Hst1, !existsb_app in called.
        rewrite (stage_not_ensure later) in called;
          [| apply (Forall_stage_neq later (fun n => n = 4%nat));
             [assumption | intros n ->; discriminate]].
        cbn in called. now rewrite orb_false_r in called.
      - destruct Hrun as (sleeps & nsID & ns & later & Htrace & Hs & Hl & _).
        rewrite Htrace, Hnew, Hst1, !existsb_app in called.
        cbn [existsb isEnsureNoExecutions] in called.
        rewrite (stage_not_ensure later), (stage_not_ensure sleeps)
          in called;
          [| apply (Forall_stage_neq sleeps (fun n => n = 2%nat));
             [assumption | intros n ->; discriminate]
           | apply (Forall_stage_neq later (fun n => n = 4%nat));
             [assumption | intros n ->; discriminate]].
        cbn in called. now rewrite orb_false_r in called. }
    destruct (Hout Hin) as (der & Hder & [= -> ->]).
    destruct (run_stops_on_step_error env params _ _ _ _ _ Hbefore R)
      as [Hres Hno].
    exists der. now repeat split.
  - destruct Hrun as [Hstage _].
    rewrite stage_not_ensure in called; [discriminate |].
    apply (Forall_stage_neq _ (fun n => n = 0 \/ n = 4)%nat);
      [assumption | intros n [-> | ->]; discriminate].
Qed.

(** C6 ([deleteWorkflowExecutions]), as the code has it: the branch is
    chosen by the version recorded for the change id [remove-std-vis], and
    the visibility probe [IsAdvancedVisibilityActivity] runs exactly when
    that version is the default version, the one of an instance created
    before standard visibility was removed; for any other recorded version
    the probe is skipped. *)
Theorem visibility_probe_iff_default_version env params st :
  exists rest,
    trace (snd (deleteWorkflowExecutions env params st))
    = trace st ++ GetVersion "remove-std-vis" DefaultVersion 0 :: rest /\
    (existsb isIsAdvancedVisibilityActivity rest = true <->
     removeStdVisVersion env = DefaultVersion).
Proof.
  destruct (deleteWorkflowExecutions env params st) as [out st'] eqn:R.
  unfold deleteWorkflowExecutions in R. winv R; cbn [snd].
  all: traces; eexists; (split; [reflexivity |]); cbn.
  all: match goal with
       | Ev : (removeStdVisVersion _ =? _) = true |- _ =>
           apply Z.eqb_eq in Ev
       | Ev : (removeStdVisVersion _ =? _) = false |- _ =>
           apply Z.eqb_neq in Ev
       end.
  all: split; intros Hx; (reflexivity || assumption || discriminate Hx
                          || contradiction).
Qed.

(** ** The delay loop *)

Lemma awaitNamespaceDeleteDelay_idle waits wait st :
  namespaceDeleteDelay st <= 0 ->
  awaitNamespaceDeleteDelay waits wait st = (tt, st).
Proof.
  intros Hd.
  destruct waits; cbn [awaitNamespaceDeleteDelay];
    destruct (Z.gtb_spec (namespaceDeleteDelay st) 0); (lia || reflexivity).
Qed.

Lemma deliver_updates request st u st' :
  deliver request st = (u, st') ->
  exists later, updates st' = updates st ++ later.
Proof.
  unfold deliver, updateHandler, wbind, note, setNamespaceDeleteDelay,
    getNamespaceDeleteDelay, getCancelDeleteDelay.
  destruct (updateValidator request); cbn.
  - intros [= <- <-]. cbn. eauto.
  - destruct (cancelDeleteDelay st); cbn; intros [= <- <-]; cbn;
      rewrite <- ?app_assoc; eauto.
Qed.

Lemma deliverAll_updates requests : forall st u st',
  deliverAll requests st = (u, st') ->
  exists later, updates st' = updates st ++ later.
Proof.
  induction requests as [| r rest IH]; intros st u st'; cbn.
  - intros [= <- <-]. exists []. now rewrite app_nil_r.
  - unfold wbind. destruct (deliver r st) as [[] st1] eqn:E1.
    intros E2. apply deliver_updates in E1 as [l1 E1].
    apply IH in E2 as [l2 E2].
    exists (l1 ++ l2). now rewrite E2, E1, app_assoc.
Qed.

Lemma awaitNamespaceDeleteDelay_updates waits : forall wait st u st',
  awaitNamespaceDeleteDelay waits wait st = (u, st') ->
  exists later, updates st' = updates st ++ later.
Proof.
  induction waits as [| requests rest IH]; intros wait st u st' R;
    cbn [awaitNamespaceDeleteDelay] in R;
    destruct (namespaceDeleteDelay st >? 0).
  - winv R. cbn. exists []. now rewrite app_nil_r.
  - injection R as <- <-. exists []. now rewrite app_nil_r.
  - winv R.
    apply IH in R as [l2 E2].
    match goal with
    | Hd : deliverAll _ _ = _ |- _ => apply deliverAll_updates in Hd as [l1 E1]
    end.
    cbn [updates] in E1.
    exists (l1 ++ l2). now rewrite E2, E1, app_assoc.
  - injection R as <- <-. exists []. now rewrite app_nil_r.
Qed.

(** While a sleep is outstanding, the requests delivered leave the delay of
    the last accepted one, and every accepted one cancels the sleep. *)
Lemma deliverAll_lastAccepted requests : forall st u st' wait newDelay,
  deliverAll requests st = (u, st') ->
  cancelDeleteDelay st = Some wait ->
  lastAccepted requests = Some newDelay ->
  namespaceDeleteDelay st' = newDelay /\
  exists new,
    updates st' = updates st ++ new /\
    In (CancelDeleteDelay wait) new /\
    In (UpdateCompleted newDelay true) new.
Proof.
  induction requests as [| r rest IH]; intros st u st' wait newDelay R Hc Hl;
    [discriminate |].
  cbn [deliverAll] in R. apply wbind_inv in R as (u1 & st1 & R1 & R).
  cbn [lastAccepted] in Hl.
  pose proof (deliver_inv _ _ _ _ R1) as [_ Hc1]. rewrite Hc in Hc1.
  destruct (lastAccepted rest) as [d |] eqn:Hrest.
  - injection Hl as ->.
    destruct (IH _ _ _ _ _ R Hc1 eq_refl) as (Hd & new & Hu & Hin1 & Hin2).
    split; [exact Hd |].
    apply deliver_updates in R1 as [l1 E1].
    exists (l1 ++ new). rewrite Hu, E1, app_assoc.
    repeat split; apply in_or_app; now right.
  - assert (Hkeep : forall st2 u2, deliverAll rest st1 = (u2, st2) ->
                      namespaceDeleteDelay st2 = namespaceDeleteDelay st1).
    { clear - Hrest. revert st1.
      induction rest as [| r' rest' IH']; intros st1 st2 u2 R.
      - now injection R as _ <-.
      - cbn [deliverAll] in R. apply wbind_inv in R as (u3 & st3 & R3 & R).
        cbn [lastAccepted] in Hrest.
        destruct (lastAccepted rest'); [discriminate |].
        unfold deliver in R3.
        destruct (updateValidator r'); [| discriminate].
        unfold note in R3. injection R3 as _ <-.
        now rewrite (IH' eq_refl _ _ _ R). }
    rewrite (Hkeep _ _ R).
    apply deliverAll_updates in R as [l2 E2].
    unfold deliver in R1.
    destruct (updateValidator r); [discriminate |].
    injection Hl as <-.
    unfold updateHandler in R1. winv R1; cbn in *; try discriminate.
    match goal with
    | Hs : Some _ = Some _ |- _ => injection Hs as ->
    end.
    split; [reflexivity |].
    rewrite E2. cbn [updates]. rewrite <- !app_assoc. cbn [app].
    eexists. split; [reflexivity |].
    split; [now left | right; now left].
Qed.

(** C5 ([ReclaimResourcesWorkflow], Step 2), as the code has it: an update
    accepted while a delay sleep is outstanding cancels that sleep; when the
    delay was thereby cleared to zero the loop ends without sleeping again,
    whatever is delivered later, and when it was set to a positive value the
    loop sleeps again, for the new delay. *)
Theorem reconfiguration_ends_or_rearms_delay requests newDelay rest wait st
    (outstanding : namespaceDeleteDelay st > 0)
    (accepted : lastAccepted requests = Some newDelay) :
  let st' := snd (awaitNamespaceDeleteDelay (requests :: rest) wait st) in
  (exists new,
     updates st' = updates st ++ new /\
     In (CancelDeleteDelay wait) new /\
     In (UpdateCompleted newDelay true) new) /\
  (newDelay <= 0 ->
   trace st'
   = trace st ++ [SleepCancelable wait (namespaceDeleteDelay st)]) /\
  (newDelay > 0 ->
   exists later,
     trace st'
     = trace st ++ SleepCancelable wait (namespaceDeleteDelay st)
         :: SleepCancelable (S wait) newDelay :: later).
Proof.
  cbn zeta.
  destruct (awaitNamespaceDeleteDelay (requests :: rest) wait st)
    as [u st'] eqn:R.
  cbn [snd]. cbn [awaitNamespaceDeleteDelay] in R.
  destruct (Z.gtb_spec (namespaceDeleteDelay st) 0) as [_ | Hle]; [| lia].
  winv R.
  match goal with
  | Hd : deliverAll _ ?s = (_, ?s1) |- _ =>
      pose proof (deliverAll_inv _ _ _ _ Hd) as [Et _];
      destruct (deliverAll_lastAccepted _ _ _ _ wait newDelay Hd eq_refl
                  accepted) as (Hdelay & new & Hu & Hin1 & Hin2);
      clear Hd; rename s1 into st1
  end.
  cbn [trace updates] in Et, Hu.
  split; [| split].
  - apply awaitNamespaceDeleteDelay_updates in R as [later R].
    exists (new ++ later). rewrite R, Hu, app_assoc.
    repeat split; apply in_or_app; now left.
  - intros Hz. rewrite awaitNamespaceDeleteDelay_idle in R; [| lia].
    injection R as _ <-. exact Et.
  - intros Hpos.
    destruct rest as [| requests' rest']; cbn [awaitNamespaceDeleteDelay] in R;
      (destruct (Z.gtb_spec (namespaceDeleteDelay st1) 0) as [Hgt | Hle];
       [| lia]).
    + winv R. cbn [trace]. rewrite Et, Hdelay, <- app_assoc. now exists [].
    + winv R.
      apply awaitNamespaceDeleteDelay_stage in R as (later & Elater & _).
      match goal with
      | Hd : deliverAll _ _ = _ |- _ =>
          apply deliverAll_inv in Hd as [Et' _]
      end.
      cbn [trace] in Et'.
      rewrite Elater, Et', Et, Hdelay, <- !app_assoc. cbn [app].
      now exists later.
Qed.

End Run.

#[local] Existing Instance sampleDependencies.

(** Every call succeeds and five executions are found: the namespace is
    deleted after Step 1 has returned without error. *)
Lemma namespace_deleted_only_after_executions_witness :
  exists p st1 r st2 later,
    beforeDeleteWorkflowExecutions (sampleEnv 0 5 None []) (sampleParams 0)
    = Some (p, st1) /\
    deleteWorkflowExecutions (sampleEnv 0 5 None []) p st1
    = ((r, None), st2) /\
    trace (snd (run (sampleEnv 0 5 None []) (sampleParams 0)))
    = trace st2 ++ later /\
    existsb isDeleteNamespaceActivity (trace st2) = false.
Proof.
  apply (proj1 (namespace_deleted_only_after_executions
                  (sampleEnv 0 5 None []) (sampleParams 0))).
  reflexivity.
Defined.

(** Two executions are left: the run ends with a retryable error that
    carries the count 2, and the namespace is not deleted. *)
Lemma residual_executions_error_is_retryable_witness :
  exists der,
    result (deleteExecutions (sampleEnv 0 5 (Some twoExecutionsLeft) []))
    = inr der /\
    fst (run (sampleEnv 0 5 (Some twoExecutionsLeft) []) (sampleParams 0))
    = ({| DeleteSuccessCount := SuccessCount der;
          DeleteErrorCount := ErrorCount der;
          NamespaceDeleted := false |},
       Some (AppError
               {| Message := "executions still exist";
                  Type_ := "ExecutionsStillExist";
                  NonRetryable := false;
                  Details := [IntDetail 2] |})) /\
    existsb isDeleteNamespaceActivity
      (trace (snd (run (sampleEnv 0 5 (Some twoExecutionsLeft) [])
                     (sampleParams 0)))) = false.
Proof.
  apply (residual_executions_error_is_retryable
           (sampleEnv 0 5 (Some twoExecutionsLeft) []) (sampleParams 0)
           twoExecutionsLeft
           {| Message := "executions still exist";
              Type_ := "ExecutionsStillExist";
              NonRetryable := true;
              Details := [IntDetail 2] |}).
  - reflexivity.
  - reflexivity.
  - reflexivity.
  - left. reflexivity.
Defined.

(** No execution is found by an instance created by the current code. *)
Lemma no_executions_no_bulk_deletion_witness :
  fst (deleteWorkflowExecutions (sampleEnv 0 0 None []) (sampleParams 0)
         initialState)
  = ({| DeleteSuccessCount := 0; DeleteErrorCount := 0;
        NamespaceDeleted := false |}, None) /\
  exists new,
    trace (snd (deleteWorkflowExecutions (sampleEnv 0 0 None [])
                  (sampleParams 0) initialState))
    = trace initialState ++ new /\
    existsb isCountExecutions new = true /\
    existsb isDeleteExecutionsWorkflow new = false.
Proof.
  apply (no_executions_no_bulk_deletion (sampleEnv 0 0 None [])
           (sampleParams 0) initialState).
  - left. discriminate.
  - reflexivity.
Defined.

(** C6 as stated fails: an instance whose recorded version is the default
    version does run the visibility probe. *)
Lemma visibility_probe_runs_for_default_version :
  removeStdVisVersion (sampleEnv DefaultVersion 0 None []) = DefaultVersion /\
  existsb isIsAdvancedVisibilityActivity
    (trace (snd (run (sampleEnv DefaultVersion 0 None []) (sampleParams 0))))
  = true.
Proof. split; reflexivity. Qed.

(** The state in which the delay loop finds a delay of one hour. *)
Lemma reconfiguration_ends_or_rearms_delay_witness :
  exists later,
    trace (snd (awaitNamespaceDeleteDelay [["2h"]; ["0"]] 0
                  {| namespaceDeleteDelay := Hour;
                     cancelDeleteDelay := None;
                     trace := []; updates := [] |}))
    = [] ++ SleepCancelable 0 Hour :: SleepCancelable 1 (2 * Hour) :: later.
Proof.
  apply (proj2 (proj2 (reconfiguration_ends_or_rearms_delay
                         (deps := sampleDependencies) ["2h"] (2 * Hour)
                         [["0"]] 0%nat
                         {| namespaceDeleteDelay := Hour;
                            cancelDeleteDelay := None;
                            trace := []; updates := [] |}
                         eq_refl eq_refl))).
  reflexivity.
Defined.

(** C5 as stated fails: two reconfigurations, delivered during the first
    and the second sleep, both take effect, and the loop sleeps three
    times. *)
Lemma two_reconfigurations_take_effect :
  delaySleeps
    (trace (snd (run (sampleEnv 0 5 None [["2h"]; ["3h"]])
                   (sampleParams Hour))))
  = [Hour; 2 * Hour; 3 * Hour] /\
  updates (snd (run (sampleEnv 0 5 None [["2h"]; ["3h"]])
                  (sampleParams Hour)))
  = [CancelDeleteDelay 0; UpdateCompleted (2 * Hour) true;
     CancelDeleteDelay 1; UpdateCompleted (3 * Hour) true].
Proof. split; reflexivity. Qed.

End ReclaimResourcesSpec.

(** * Further properties of [create_workflow_util.go] *)

Module ApiExtras.
Import Api.

Lemma len_zero (s : string) : len s = 0 <-> s = "".
Proof.
  unfold len. destruct s; cbn [String.length]; split;
    (reflexivity || discriminate || lia).
Qed.

Lemma GetName_present (n : option string) :
  isNil n || String.eqb (GetName n) "" = false <->
  exists name, n = Some name /\ name <> "".
Proof.
  destruct n as [name |]; cbn.
  - destruct (String.eqb_spec name ""); split.
    + discriminate.
    + intros (name' & [= <-] & Hne). contradiction.
    + intros _. now exists name.
    + reflexivity.
  - split; [discriminate | intros (name & Hc & _); discriminate].
Qed.

Section Validation.

Variable MaxIDLengthLimit : Config -> Z.
Variable ValidateProtoDuration : option Duration -> option string.
Context {VersioningOverride RetryPolicy : Type}.
Variable ValidateVersioningOverride :
  option VersioningOverride -> option requestError.
Variable RetryPolicyValidate : option RetryPolicy -> option requestError.
Variable CheckEventBlobSizeLimit :
  Z -> Z -> Z -> string -> string -> string -> string -> string ->
  list Emission * option error.

(** [ValidateStart] returns no error exactly when both size checks pass, the
    error of the input check as it is, and [ErrMemoSizeExceedsLimit] for
    whatever error the memo check returns. *)
Theorem ValidateStart_passes_iff shard ns wid inputSize memoSize op :
  let config := GetConfig shard in
  let name := NamespaceName ns in
  let inputCheck :=
    CheckEventBlobSizeLimit inputSize (BlobSizeLimitWarn config name)
      (BlobSizeLimitError config name) name wid "" op op in
  let memoCheck :=
    CheckEventBlobSizeLimit memoSize (MemoSizeLimitWarn config name)
      (MemoSizeLimitError config name) name wid "" op op in
  let r := ValidateStart CheckEventBlobSizeLimit shard ns wid inputSize
             memoSize op in
  (snd r = None <-> snd inputCheck = None /\ snd memoCheck = None) /\
  (forall err, snd inputCheck = Some err -> snd r = Some err) /\
  (forall err, snd inputCheck = None -> snd memoCheck = Some err ->
               snd r = Some ErrMemoSizeExceedsLimit).
Proof.
  cbn zeta. unfold ValidateStart.
  destruct (CheckEventBlobSizeLimit inputSize _ _ _ _ _ _ _)
    as [emitted1 [err1 |]]; cbn [fst snd].
  - repeat split; try discriminate; try tauto;
      try (intros [Hc _]; discriminate); congruence.
  - destruct (CheckEventBlobSizeLimit memoSize _ _ _ _ _ _ _)
      as [emitted2 [err2 |]]; cbn [fst snd];
      repeat split; try discriminate; try tauto;
      try (intros [_ Hc]; discriminate); congruence.
Qed.

(** [ValidateStartWorkflowExecutionRequest] accepts a request exactly when
    the request id is not empty, the three timeouts are valid, the task
    queue and the workflow type are present with a non-empty name, the
    namespace, the workflow id and both names are no longer than the limit,
    the versioning override and the retry policy are valid, and
    [ValidateStart] accepts the sizes.  An empty workflow id is accepted and
    a length equal to the limit is within it. *)
Theorem ValidateStartWorkflowExecutionRequest_passes_iff
    (request : @StartRequestFields VersioningOverride RetryPolicy)
    shard ns op :
  let limit := MaxIDLengthLimit (GetConfig shard) in
  snd (ValidateStartWorkflowExecutionRequest MaxIDLengthLimit
         ValidateProtoDuration ValidateVersioningOverride RetryPolicyValidate
         CheckEventBlobSizeLimit request shard ns op) = None
  <->
  reqRequestId request <> "" /\
  ValidateProtoDuration (reqWorkflowExecutionTimeout request) = None /\
  ValidateProtoDuration (reqWorkflowRunTimeout request) = None /\
  ValidateProtoDuration (reqWorkflowTaskTimeout request) = None /\
  (exists name, reqTaskQueue request = Some name /\ name <> "" /\
                len name <= limit) /\
  (exists name, reqWorkflowType request = Some name /\ name <> "" /\
                len name <= limit) /\
  len (reqNamespace request) <= limit /\
  len (reqWorkflowId request) <= limit /\
  ValidateVersioningOverride (reqVersioningOverride request) = None /\
  RetryPolicyValidate (reqRetryPolicy request) = None /\
  snd (ValidateStart CheckEventBlobSizeLimit shard ns (reqWorkflowId request)
         (reqInputSize request) (reqMemoSize request) op) = None.
Proof.
  cbn zeta. unfold ValidateStartWorkflowExecutionRequest.
  destruct (Z.eqb_spec (len (reqRequestId request)) 0) as [Hid | Hid];
    rewrite len_zero in Hid.
  { cbn. split; [discriminate | tauto]. }
  destruct (ValidateProtoDuration (reqWorkflowExecutionTimeout request)).
  { cbn. split; [discriminate | intros (_ & Hc & _); discriminate]. }
  destruct (ValidateProtoDuration (reqWorkflowRunTimeout request)).
  { cbn. split; [discriminate | intros (_ & _ & Hc & _); discriminate]. }
  destruct (ValidateProtoDuration (reqWorkflowTaskTimeout request)).
  { cbn. split; [discriminate | intros (_ & _ & _ & Hc & _); discriminate]. }
  destruct (isNil (reqTaskQueue request)
            || String.eqb (GetName (reqTaskQueue request)) "") eqn:Htq.
  { cbn. split; [discriminate |].
    intros (_ & _ & _ & _ & (name & Hn & Hne & _) & _).
    assert (Hc : isNil (reqTaskQueue request)
                 || String.eqb (GetName (reqTaskQueue request)) "" = false)
      by (apply GetName_present; eauto).
    congruence. }
  apply GetName_present in Htq as (tq & Htq & Htqne).
  destruct (isNil (reqWorkflowType request)
            || String.eqb (GetName (reqWorkflowType request)) "") eqn:Hwt.
  { cbn. split; [discriminate |].
    intros (_ & _ & _ & _ & _ & (name & Hn & Hne & _) & _).
    assert (Hc : isNil (reqWorkflowType request)
                 || String.eqb (GetName (reqWorkflowType request)) "" = false)
      by (apply GetName_present; eauto).
    congruence. }
  apply GetName_present in Hwt as (wt & Hwt & Hwtne).
  rewrite Htq, Hwt. cbn [GetName].
  destruct (Z.gtb_spec (len (reqNamespace request))
              (MaxIDLengthLimit (GetConfig shard))).
  { cbn. split; [discriminate | intros Hall; decompose [and ex] Hall; lia]. }
  destruct (Z.gtb_spec (len (reqWorkflowId request))
              (MaxIDLengthLimit (GetConfig shard))).
  { cbn. split; [discriminate | intros Hall; decompose [and ex] Hall; lia]. }
  destruct (Z.gtb_spec (len tq) (MaxIDLengthLimit (GetConfig shard))).
  { cbn. split; [discriminate |].
    intros (_ & _ & _ & _ & (name & [= <-] & _ & Hl) & _). lia. }
  destruct (Z.gtb_spec (len wt) (MaxIDLengthLimit (GetConfig shard))).
  { cbn. split; [discriminate |].
    intros (_ & _ & _ & _ & _ & (name & [= <-] & _ & Hl) & _). lia. }
  destruct (ValidateVersioningOverride (reqVersioningOverride request)).
  { cbn. split; [discriminate | intros Hall; decompose [and ex] Hall; discriminate]. }
  destruct (RetryPolicyValidate (reqRetryPolicy request)).
  { cbn. split; [discriminate | intros Hall; decompose [and ex] Hall; discriminate]. }
  destruct (ValidateStart _ _ _ _ _ _ _) as [emitted [err |]]; cbn.
  - split; [discriminate | intros Hall; decompose [and ex] Hall; discriminate].
  - split; [intros _ | reflexivity].
    repeat split; try assumption; try lia; eauto.
Qed.

End Validation.

Section Normalization.

Context {VersioningOverride RetryPolicy : Type}.
Variable OverrideWorkflowRunTimeout : Duration -> Duration -> Duration.
Variable DefaultWorkflowTaskTimeout : Config -> string -> Duration.
Variable OverrideWorkflowTaskTimeout :
  string -> Duration -> Duration -> (string -> Duration) -> Duration.

(** [OverrideStartWorkflowExecutionRequest] leaves the run timeout at the
    value of [OverrideWorkflowRunTimeout] and the task timeout at the value
    of [OverrideWorkflowTaskTimeout] computed from that new run timeout; a
    timeout whose value does not change is left as it was ([nil] stays
    [nil]), one metric is recorded per timeout that changes, run timeout
    first, and no other field is touched. *)
Theorem OverrideStartWorkflowExecutionRequest_result
    (request : @StartRequestFields VersioningOverride RetryPolicy)
    operation shard :
  let out :=
    OverrideStartWorkflowExecutionRequest OverrideWorkflowRunTimeout
      DefaultWorkflowTaskTimeout OverrideWorkflowTaskTimeout request
      operation shard in
  let run :=
    OverrideWorkflowRunTimeout
      (DurationValue (reqWorkflowRunTimeout request))
      (DurationValue (reqWorkflowExecutionTimeout request)) in
  let task :=
    OverrideWorkflowTaskTimeout (reqNamespace request)
      (DurationValue (reqWorkflowTaskTimeout request)) run
      (DefaultWorkflowTaskTimeout (GetConfig shard)) in
  DurationValue (reqWorkflowRunTimeout (fst out)) = run /\
  DurationValue (reqWorkflowTaskTimeout (fst out)) = task /\
  (run = DurationValue (reqWorkflowRunTimeout request) ->
   reqWorkflowRunTimeout (fst out) = reqWorkflowRunTimeout request) /\
  (task = DurationValue (reqWorkflowTaskTimeout request) ->
   reqWorkflowTaskTimeout (fst out) = reqWorkflowTaskTimeout request) /\
  snd out
  = (if run =? DurationValue (reqWorkflowRunTimeout request) then []
     else [WorkflowRunTimeoutOverrideCount operation (reqNamespace request)])
    ++ (if task =? DurationValue (reqWorkflowTaskTimeout request) then []
        else [WorkflowTaskTimeoutOverrideCount operation
                (reqNamespace request)]) /\
  setWorkflowRunTimeout (reqWorkflowRunTimeout (fst out))
    (setWorkflowTaskTimeout (reqWorkflowTaskTimeout (fst out)) request)
  = fst out.
Proof.
  cbn zeta. unfold OverrideStartWorkflowExecutionRequest.
  destruct (Z.eqb_spec
              (OverrideWorkflowRunTimeout
                 (DurationValue (reqWorkflowRunTimeout request))
                 (DurationValue (reqWorkflowExecutionTimeout request)))
              (DurationValue (reqWorkflowRunTimeout request)))
    as [Hrun | Hrun].
  - rewrite Hrun.
    destruct (Z.eqb_spec
                (OverrideWorkflowTaskTimeout (reqNamespace request)
                   (DurationValue (reqWorkflowTaskTimeout request))
                   (DurationValue (reqWorkflowRunTimeout request))
                   (DefaultWorkflowTaskTimeout (GetConfig shard)))
                (DurationValue (reqWorkflowTaskTimeout request)))
      as [Htask | Htask]; cbn [fst snd]; destruct request; cbn in *;
      repeat split; try reflexivity; try congruence.
  - cbn [reqNamespace reqWorkflowTaskTimeout reqWorkflowRunTimeout
           setWorkflowRunTimeout DurationValue].
    destruct (Z.eqb_spec
                (OverrideWorkflowTaskTimeout (reqNamespace request)
                   (DurationValue (reqWorkflowTaskTimeout request))
                   (OverrideWorkflowRunTimeout
                      (DurationValue (reqWorkflowRunTimeout request))
                      (DurationValue (reqWorkflowExecutionTimeout request)))
                   (DefaultWorkflowTaskTimeout (GetConfig shard)))
                (DurationValue (reqWorkflowTaskTimeout request)))
      as [Htask | Htask]; cbn [fst snd]; destruct request; cbn in *;
      repeat split; try reflexivity; try congruence.
Qed.

End Normalization.

Section Initialization.

Context {ms : Type} `{MutableState ms}.
Variable NewMutableState : Shard -> Namespace -> string -> string -> Z -> ms.

(** [NewWorkflowWithSignal] calls the mutable state in one fixed order, each
    method at most once: the history tree, the started event, the
    signal-requested marker, the signaled event, the first workflow task,
    the start of that task. *)
Theorem NewWorkflowWithSignal_call_order shard ns wid rid req sig :
  StronglySorted (fun a b => (callOrder a < callOrder b)%nat)
    (calls (NewWorkflowWithSignal NewMutableState shard ns wid rid req sig)).
Proof.
  unfold NewWorkflowWithSignal, CreateMutableState,
    GenerateFirstWorkflowTask, call.
  destruct (SetHistoryTree _ _ _ _) as [e | s0];
    [repeat constructor |].
  cbn [bind].
  destruct (AddWorkflowExecutionStartedEvent _ _ _) as [e | [ev s1]];
    [repeat constructor; cbn; lia |].
  cbn [bind ret app].
  destruct sig as [sg |]; cbn [bind ret app].
  - destruct (String.eqb (SignalRequestId sg) ""); cbn [bind ret app];
      destruct (AddWorkflowExecutionSignaled _ _ _ _ _ _) as [e | [ev' s2]];
      cbn [bind ret app calls fst];
      try (destruct (ParentExecutionInfo_ req); cbn [bind ret app];
           [| destruct (AddFirstWorkflowTaskScheduled _ _ _)
                as [e | [sid s3]]; cbn [bind ret app]];
           try destruct (RequestEagerExecution _ && HasPendingWorkflowTask _);
           cbn [bind ret app calls fst]);
      repeat constructor; cbn; lia.
  - destruct (ParentExecutionInfo_ req); cbn [bind ret app];
      [| destruct (AddFirstWorkflowTaskScheduled _ _ _)
           as [e | [sid s3]]; cbn [bind ret app]];
      try destruct (RequestEagerExecution _ && HasPendingWorkflowTask _);
      cbn [bind ret app calls fst];
      repeat constructor; cbn; lia.
Qed.

(** The initialization is all or nothing: when the started event cannot be
    recorded, [NewWorkflowWithSignal] returns that error and no state, having
    made no call after the failed one; when the signaled event cannot be
    recorded, it returns that error and no workflow task is scheduled or
    started. *)
Theorem failed_event_aborts_initialization shard ns wid rid req sig s0 e
    (created :
       SetHistoryTree (WorkflowExecutionTimeout (StartRequest req))
         (WorkflowRunTimeout (StartRequest req)) rid
         (NewMutableState shard ns wid rid (Now shard)) = inr s0) :
  let m := NewWorkflowWithSignal NewMutableState shard ns wid rid req sig in
  let execution := {| WorkflowId := wid; RunId := rid |} in
  (AddWorkflowExecutionStartedEvent execution req s0 = inl e ->
   m = ([CallSetHistoryTree rid;
         CallAddWorkflowExecutionStartedEvent execution], inl e)) /\
  (forall startEvent s1 sg,
     AddWorkflowExecutionStartedEvent execution req s0
     = inr (startEvent, s1) ->
     sig = Some sg ->
     AddWorkflowExecutionSignaled (SignalName sg) (SignalInput sg)
       (SignalIdentity sg) (SignalHeader sg) (SignalLinks sg)
       (if String.eqb (SignalRequestId sg) "" then s1
        else AddSignalRequested (SignalRequestId sg) s1) = inl e ->
     outcome m = inl e /\
     existsb isAddFirstWorkflowTaskScheduled (calls m) = false /\
     existsb isAddWorkflowTaskStartedEvent (calls m) = false).
Proof.
  cbn zeta.
  unfold NewWorkflowWithSignal, CreateMutableState, call.
  rewrite created. cbn [bind]. split.
  - intros ->. reflexivity.
  - intros startEvent s1 sg -> -> Hsig. cbn [bind ret app].
    destruct (String.eqb (SignalRequestId sg) ""); cbn [bind ret app];
      rewrite Hsig; cbn; repeat split.
Qed.

(** The workflow task is started with the event id that task generation
    returned and with the request id, the task queue and the identity of the
    start request, after task generation left a pending task and only for an
    eager request. *)
Theorem started_task_is_the_generated_one shard ns wid rid req sig
    scheduledEventID requestID taskQueue identity
    (called :
       In (CallAddWorkflowTaskStartedEvent scheduledEventID requestID
             taskQueue identity)
          (calls (NewWorkflowWithSignal NewMutableState shard ns wid rid
                    req sig))) :
  requestID = RequestId (StartRequest req) /\
  taskQueue = TaskQueue (StartRequest req) /\
  identity = Identity (StartRequest req) /\
  RequestEagerExecution (StartRequest req) = true /\
  exists s,
    outcome (firstWorkflowTaskGenerated NewMutableState shard ns wid rid
               req sig) = inr (scheduledEventID, s) /\
    HasPendingWorkflowTask s = true.
Proof.
  pose proof (ApiSpec.firstWorkflowTaskGenerated_not_started NewMutableState
                shard ns wid rid req sig) as Hpre.
  rewrite ApiSpec.NewWorkflowWithSignal_split in called.
  destruct (firstWorkflowTaskGenerated NewMutableState shard ns wid rid
              req sig) as [log [e | [sid s]]];
    cbn [calls fst outcome snd bind] in *.
  - assert (Hc : existsb isAddWorkflowTaskStartedEvent log = true)
      by (apply existsb_exists; eexists; split; [exact called | reflexivity]).
    congruence.
  - destruct (RequestEagerExecution (StartRequest req)) eqn:Ee;
      destruct (HasPendingWorkflowTask s) eqn:Ep;
      cbn [andb call ret fst] in called;
      rewrite ?app_nil_r in called;
      try (assert (Hc : existsb isAddWorkflowTaskStartedEvent log = true)
            by (apply existsb_exists; eexists;
                split; [exact called | reflexivity]);
           congruence).
    apply in_app_or in called as [Hin | [[= <- <- <- <-] | []]].
    + assert (Hc : existsb isAddWorkflowTaskStartedEvent log = true)
        by (apply existsb_exists; eexists; split; [exact Hin | reflexivity]).
      congruence.
    + repeat split. now exists s.
Qed.

End Initialization.

(** The accepted sample request has an empty workflow id. *)
Example sample_request_is_accepted :
  ValidateStartWorkflowExecutionRequest (fun _ => 1000)
    sampleValidateProtoDuration (fun _ => None) (fun _ => None)
    CheckEventBlobSizeLimit sampleFields sampleShard sampleNamespace "start"
  = ([RecordMetric MemoSize "start" 10], None).
Proof. reflexivity. Qed.

(** A run timeout that is not set is capped by the execution timeout, and
    one metric is recorded. *)
Example sample_request_is_normalized :
  let out :=
    OverrideStartWorkflowExecutionRequest sampleOverrideRunTimeout
      (fun _ _ => 10) sampleOverrideTaskTimeout sampleFields "start"
      sampleShard in
  reqWorkflowRunTimeout (fst out) = Some 60 /\
  reqWorkflowTaskTimeout (fst out) = None /\
  snd out = [WorkflowRunTimeoutOverrideCount "start" "acme"].
Proof. repeat split. Qed.

(** The eager sample start on the reference state starts the task scheduled
    as event 2. *)
Lemma started_task_is_the_generated_one_witness :
  exists s,
    outcome (firstWorkflowTaskGenerated refNewMutableState sampleShard
               sampleNamespace "wf" "run" (sampleRequest true None) None)
    = inr (2, s) /\
    HasPendingWorkflowTask s = true.
Proof.
  apply (started_task_is_the_generated_one refNewMutableState sampleShard
           sampleNamespace "wf" "run" (sampleRequest true None) None
           2 "request-1" "queue" "starter").
  cbn. tauto.
Defined.

(** The started event fails on a state that records nothing. *)
Lemma failed_event_aborts_initialization_witness :
  NewWorkflowWithSignal (H := StartedEventFails)
    (fun _ _ _ _ _ => tt) sampleShard sampleNamespace "wf" "run"
    (sampleRequest true None) (Some (sampleSignal "signal-1"))
  = ([CallSetHistoryTree "run";
      CallAddWorkflowExecutionStartedEvent
        {| WorkflowId := "wf"; RunId := "run" |}],
     inl (MutableStateError "unable to add the started event")).
Proof.
  apply (proj1 (failed_event_aborts_initialization (H := StartedEventFails)
                  (fun _ _ _ _ _ => tt) sampleShard sampleNamespace
                  "wf" "run" (sampleRequest true None)
                  (Some (sampleSignal "signal-1")) tt
                  (MutableStateError "unable to add the started event")
                  eq_refl)).
  reflexivity.
Defined.

End ApiExtras.

(** * Further properties of [reclaimresources/workflow.go] *)

Module ReclaimResourcesExtras.
Import ReclaimResources.
Import ReclaimResourcesSpec.

Section Anatomy.

Context {deps : Dependencies}.

Lemma deferredMetrics_trace r st u st' :
  deferredMetrics r st = (u, st') ->
  trace st' = trace st ++ deferredCounters r.
Proof.
  intros R. unfold deferredMetrics in R. unfold deferredCounters.
  destruct (NamespaceDeleted r), (DeleteSuccessCount r >? 0),
    (DeleteErrorCount r >? 0); winv R; cbn [trace];
    rewrite <- ?app_assoc; reflexivity.
Qed.

End Anatomy.

(** Run the next part of the workflow that is ready to run, in the goal, and
    keep what it did. *)
Ltac run_case :=
  cbn beta iota zeta;
  match goal with
  | |- context [await ?c ?a ?s] =>
      let E := fresh "Ra" in
      let Et := fresh "Et" in
      destruct (await c a s) as [? ?] eqn:E;
      apply await_inv in E as (-> & Et & _); cbn [trace] in Et
  | |- context [deleteWorkflowExecutions ?e ?p ?s] =>
      let E := fresh "Rstep" in
      let new := fresh "new" in
      let Enew := fresh "Enew" in
      destruct (deleteWorkflowExecutions e p s) as [[? ?] ?] eqn:E;
      destruct (deleteWorkflowExecutions_stage _ _ _ _ _ E)
        as (new & Enew & _)
  | |- context [awaitNamespaceDeleteDelay ?w ?n ?s] =>
      let E := fresh "Rloop" in
      let sleeps := fresh "sleeps" in
      let Eloop := fresh "Eloop" in
      destruct (awaitNamespaceDeleteDelay w n s) as [[] ?] eqn:E;
      destruct (awaitNamespaceDeleteDelay_stage _ _ _ _ _ E)
        as (sleeps & Eloop & _)
  | |- context [deferredMetrics ?r ?s] =>
      let E := fresh "Rdefer" in
      destruct (deferredMetrics r s) as [[] ?] eqn:E;
      apply deferredMetrics_trace in E
  | |- context [match result ?a with Some _ => _ | None => _ end] =>
      let E := fresh "E" in destruct (result a) eqn:E
  | |- context [match ?o with Some _ => _ | None => _ end] =>
      is_var o; destruct o
  end.

Section Runs.

Context {deps : Dependencies}.

Lemma run_invalid env params p e :
  validateParams params = (p, Some e) ->
  run env params = ((zeroResult, Some e), initialState).
Proof.
  intros Hv. unfold run, ReclaimResourcesWorkflow. now rewrite Hv.
Qed.

(** Every run with valid parameters is one of the five bodies followed by
    the deferred counters. *)
Lemma run_body env params p :
  validateParams params = (p, None) ->
  exists body r err,
    Body env p body r err /\
    fst (run env params) = (r, err) /\
    trace (snd (run env params)) = body ++ deferredCounters r.
Proof.
  intros Hv. unfold run, ReclaimResourcesWorkflow. rewrite Hv.
  unfold wbind, wret, setNamespaceDeleteDelay, setCancelDeleteDelay.
  cbn beta iota zeta.
  destruct (setUpdateHandlerError env) as [herr |] eqn:Hh.
  - run_case. cbn [fst snd]. do 3 eexists.
    split; [apply HandlerNotSet; eassumption |]. split; [reflexivity |].
    exact Rdefer.
  - repeat run_case; cbn [fst snd]; do 3 eexists.
    + split; [eapply CacheRefreshFailed; eassumption |].
      split; [reflexivity |]. now rewrite Rdefer, Et.
    + split; [eapply ExecutionsNotDeleted; eassumption |].
      split; [reflexivity |]. now rewrite Rdefer, Enew, Et.
    + split; [eapply NamespaceNotDeleted; eassumption |].
      split; [reflexivity |].
      rewrite Rdefer, Et0, Eloop, Enew, Et. cbn [trace app].
      now rewrite <- !app_assoc.
    + split; [eapply NamespaceIsDeleted; eassumption |].
      split; [reflexivity |].
      rewrite Rdefer, Et0, Eloop, Enew, Et. cbn [trace app].
      now rewrite <- !app_assoc.
Qed.

Lemma validateParams_cases params :
  let dp := DeleteExecutionsParams_ params in
  (NamespaceID dp = "" /\
   validateParams params
   = (params, Some (NewNonRetryableApplicationError
                      "namespace ID is required" ""))) \/
  (NamespaceID dp <> "" /\ Namespace dp = "" /\
   validateParams params
   = (params, Some (NewNonRetryableApplicationError
                      "namespace is required" ""))) \/
  (NamespaceID dp <> "" /\ Namespace dp <> "" /\
   validateParams params
   = ({| DeleteExecutionsParams_ :=
           {| Namespace := Namespace dp;
              NamespaceID := NamespaceID dp;
              Config_ := ApplyDefaults (Config_ dp) |};
         NamespaceDeleteDelay := NamespaceDeleteDelay params |}, None)).
Proof.
  cbn zeta. unfold validateParams.
  destruct (String.eqb_spec (NamespaceID (DeleteExecutionsParams_ params)) "").
  - left. now split.
  - destruct (String.eqb_spec (Namespace (DeleteExecutionsParams_ params)) "").
    + right; left. now repeat split.
    + right; right. now repeat split.
Qed.

Lemma deferredCounters_stage r :
  Forall (fun c => stage c = 4%nat) (deferredCounters r).
Proof.
  unfold deferredCounters.
  destruct (DeleteSuccessCount r >? 0), (DeleteErrorCount r >? 0);
    repeat constructor.
Qed.

Lemma In_deferredCounters r c n :
  In (IncCounter c n) (deferredCounters r) <->
  match c with
  | ReclaimResourcesNamespaceDeleteSuccessCount =>
      n = 1 /\ NamespaceDeleted r = true
  | ReclaimResourcesNamespaceDeleteFailureCount =>
      n = 1 /\ NamespaceDeleted r = false
  | ReclaimResourcesDeleteExecutionsSuccessCount =>
      n = DeleteSuccessCount r /\ n > 0
  | ReclaimResourcesDeleteExecutionsFailureCount =>
      n = DeleteErrorCount r /\ n > 0
  end.
Proof.
  unfold deferredCounters.
  destruct c; destruct (NamespaceDeleted r);
    destruct (Z.gtb_spec (DeleteSuccessCount r) 0);
    destruct (Z.gtb_spec (DeleteErrorCount r) 0);
    cbn [In app]; split; intros Hx;
    repeat match goal with
           | Hor : _ \/ _ |- _ => destruct Hor as [Hor | Hor]
           | Hf : False |- _ => contradiction
           | Heq : IncCounter _ _ = IncCounter _ _ |- _ =>
               first [discriminate Heq | injection Heq as <-]
           | Hand : _ /\ _ |- _ => destruct Hand
           end;
    subst; try discriminate; try lia; try (split; (reflexivity || lia));
    auto 6.
Qed.

(** The calls of a body, step by step. *)
Lemma Body_order env p body r err :
  Body env p body r err ->
  exists refresh step sleeps deletion,
    body = refresh ++ step ++ sleeps ++ deletion /\
    Forall (fun c => stage c = 0%nat) refresh /\
    (List.length refresh <= 1)%nat /\
    Forall (fun c => stage c = 1%nat) step /\
    Forall (fun c => stage c = 2%nat) sleeps /\
    Forall (fun c => stage c = 3%nat) deletion /\
    (List.length deletion <= 1)%nat.
Proof.
  intros HB.
  destruct HB as [e Hh | e Hh Hs | st1 st2 r e new Hh Hs Rstep Enew
                 | st1 st2 st3 r new sleeps e Hh Hs Rstep Enew Rloop Eloop Hd
                 | st1 st2 st3 r new sleeps Hh Hs Rstep Enew Rloop Eloop Hd].
  - exists [], [], [], []. repeat split; auto; cbn; lia.
  - exists [Sleep namespaceCacheRefreshDelay], [], [], [].
    repeat split; auto; cbn; lia.
  - destruct (deleteWorkflowExecutions_stage _ _ _ _ _ Rstep)
      as (new' & Enew' & Fnew).
    rewrite Enew in Enew'. apply app_inv_head in Enew' as <-.
    exists [Sleep namespaceCacheRefreshDelay], new, [], [].
    rewrite !app_nil_r.
    repeat split; auto; cbn; lia.
  - destruct (deleteWorkflowExecutions_stage _ _ _ _ _ Rstep)
      as (new' & Enew' & Fnew).
    rewrite Enew in Enew'. apply app_inv_head in Enew' as <-.
    destruct (awaitNamespaceDeleteDelay_stage _ _ _ _ _ Rloop)
      as (sleeps' & Eloop' & Fsleeps).
    rewrite Eloop in Eloop'. apply app_inv_head in Eloop' as <-.
    exists [Sleep namespaceCacheRefreshDelay], new, sleeps.
    eexists. split; [reflexivity |].
    repeat split; auto; try (cbn; lia); repeat constructor.
  - destruct (deleteWorkflowExecutions_stage _ _ _ _ _ Rstep)
      as (new' & Enew' & Fnew).
    rewrite Enew in Enew'. apply app_inv_head in Enew' as <-.
    destruct (awaitNamespaceDeleteDelay_stage _ _ _ _ _ Rloop)
      as (sleeps' & Eloop' & Fsleeps).
    rewrite Eloop in Eloop'. apply app_inv_head in Eloop' as <-.
    exists [Sleep namespaceCacheRefreshDelay], new, sleeps.
    eexists. split; [reflexivity |].
    repeat split; auto; try (cbn; lia); repeat constructor.
Qed.

(** A body ends without error exactly when the namespace deletion was
    called and succeeded, and exactly then the result says so. *)
Lemma Body_deleted env p body r err :
  Body env p body r err ->
  (err = None <->
   existsb isDeleteNamespaceActivity body = true /\
   result (deleteNamespace env) = None) /\
  (err = None <-> NamespaceDeleted r = true).
Proof.
  intros HB. pose proof (Body_order _ _ _ _ _ HB)
    as (refresh & step & sleeps & deletion & Ebody & F0 & _ & F1 & F2 & _).
  destruct HB as [e Hh | e Hh Hs | st1 st2 r e new Hh Hs Rstep Enew
                 | st1 st2 st3 r new sleeps' e Hh Hs Rstep Enew Rloop Eloop Hd
                 | st1 st2 st3 r new sleeps' Hh Hs Rstep Enew Rloop Eloop Hd].
  - cbn. repeat split; try discriminate. intros [Hc _]. discriminate.
  - cbn. repeat split; try discriminate. intros [Hc _]. discriminate.
  - apply deleteWorkflowExecutions_not_deleted in Rstep as Hr.
    destruct (deleteWorkflowExecutions_stage _ _ _ _ _ Rstep)
      as (new' & Enew' & Fnew).
    rewrite Enew in Enew'. apply app_inv_head in Enew' as <-.
    cbn [existsb isDeleteNamespaceActivity orb].
    rewrite (stage_not_deletion new);
      [| apply (Forall_stage_neq new (fun n => n = 1%nat));
         [assumption | intros n ->; discriminate]].
    repeat split; try discriminate; try congruence.
    intros [Hc _]. discriminate.
  - apply deleteWorkflowExecutions_not_deleted in Rstep as Hr.
    repeat split; try discriminate; try congruence.
    intros [_ Hc]. congruence.
  - repeat split; try reflexivity; try assumption.
    cbn [existsb isDeleteNamespaceActivity orb].
    rewrite !existsb_app. cbn. now rewrite !orb_true_r.
Qed.

(** A run is either rejected by [validateParams] or a body followed by the
    deferred counters. *)
Lemma run_cases env params :
  let dp := DeleteExecutionsParams_ params in
  ((NamespaceID dp = "" \/ Namespace dp = "") /\
   exists msg,
     run env params
     = ((zeroResult, Some (NewNonRetryableApplicationError msg "")),
        initialState)) \/
  (NamespaceID dp <> "" /\ Namespace dp <> "" /\
   exists body r err,
     Body env
       {| DeleteExecutionsParams_ :=
            {| Namespace := Namespace dp;
               NamespaceID := NamespaceID dp;
               Config_ := ApplyDefaults (Config_ dp) |};
          NamespaceDeleteDelay := NamespaceDeleteDelay params |}
       body r err /\
     fst (run env params) = (r, err) /\
     trace (snd (run env params)) = body ++ deferredCounters r).
Proof.
  cbn zeta.
  destruct (validateParams_cases params)
    as [[Hid Hv] | [(Hid & Hns & Hv) | (Hid & Hns & Hv)]].
  - left. split; [now left |]. eexists. exact (run_invalid env _ _ _ Hv).
  - left. split; [now right |]. eexists. exact (run_invalid env _ _ _ Hv).
  - right. repeat split; try assumption. exact (run_body env _ _ Hv).
Qed.

(** [ReclaimResourcesWorkflow] makes no call at all, and increments no
    counter, exactly when the namespace id or the namespace name is empty;
    it then returns the zero result with a non-retryable application error
    of empty type. *)
Theorem run_makes_no_call_iff_parameter_missing env params :
  let dp := DeleteExecutionsParams_ params in
  let missing := NamespaceID dp = "" \/ Namespace dp = "" in
  (missing <-> trace (snd (run env params)) = []) /\
  (trace (snd (run env params)) = [] ->
   exists msg,
     run env params
     = ((zeroResult, Some (NewNonRetryableApplicationError msg "")),
        initialState)).
Proof.
  cbn zeta.
  destruct (run_cases env params)
    as [[Hmiss [msg Hrun]] | (Hid & Hns & body & r & err & _ & _ & Htrace)].
  - rewrite Hrun. cbn. repeat split; eauto.
  - rewrite Htrace. unfold deferredCounters.
    split; [split |].
    + intros [Hc | Hc]; contradiction.
    + intros Hc. apply app_eq_nil in Hc as [_ Hc]. discriminate.
    + intros Hc. apply app_eq_nil in Hc as [_ Hc]. discriminate.
Qed.

(** [ReclaimResourcesWorkflow] returns no error exactly when
    [DeleteNamespaceActivity] was called and succeeded, and exactly then the
    result has [NamespaceDeleted] set. *)
Theorem run_succeeds_iff_namespace_deleted env params :
  let out := run env params in
  (snd (fst out) = None <->
   existsb isDeleteNamespaceActivity (trace (snd out)) = true /\
   result (deleteNamespace env) = None) /\
  (snd (fst out) = None <-> NamespaceDeleted (fst (fst out)) = true).
Proof.
  cbn zeta.
  destruct (run_cases env params)
    as [[Hmiss [msg Hrun]]
       | (Hid & Hns & body & r & err & HB & Hout & Htrace)].
  - rewrite Hrun. cbn. repeat split; try discriminate.
    intros [Hc _]. discriminate.
  - rewrite Htrace, Hout. cbn [fst snd].
    destruct (Body_deleted _ _ _ _ _ HB) as [Hcall Hflag].
    split; [| exact Hflag].
    rewrite existsb_app, (stage_not_deletion (deferredCounters r)),
      orb_false_r; [exact Hcall |].
    apply (Forall_stage_neq _ (fun n => n = 4%nat));
      [apply deferredCounters_stage | intros n ->; discriminate].
Qed.

(** The calls of a run come in the order of the steps: at most one
    cache-refresh sleep, the calls of Step 1, the cancelable sleeps of
    Step 2, at most one call of [DeleteNamespaceActivity], and the counters
    of the deferred function last. *)
Theorem run_calls_in_step_order env params :
  exists refresh step sleeps deletion counters,
    trace (snd (run env params))
    = refresh ++ step ++ sleeps ++ deletion ++ counters /\
    Forall (fun c => stage c = 0%nat) refresh /\
    (List.length refresh <= 1)%nat /\
    Forall (fun c => stage c = 1%nat) step /\
    Forall (fun c => stage c = 2%nat) sleeps /\
    Forall (fun c => stage c = 3%nat) deletion /\
    (List.length deletion <= 1)%nat /\
    Forall (fun c => stage c = 4%nat) counters.
Proof.
  destruct (run_cases env params)
    as [[Hmiss [msg Hrun]]
       | (Hid & Hns & body & r & err & HB & Hout & Htrace)].
  - rewrite Hrun. exists [], [], [], [], []. cbn. repeat split; auto.
  - destruct (Body_order _ _ _ _ _ HB)
      as (refresh & step & sleeps & deletion & -> & F0 & L0 & F1 & F2 & F3
          & L3).
    exists refresh, step, sleeps, deletion, (deferredCounters r).
    rewrite Htrace, <- !app_assoc.
    repeat split; auto using deferredCounters_stage.
Qed.

(** The counters tell what the run returned: the delete-success counter is
    incremented exactly when the run returns no error, the delete-failure
    counter exactly when valid parameters end in an error, and each
    executions counter by the count of the result, when that count is
    positive and the parameters are valid. *)
Theorem counters_report_the_result env params :
  let dp := DeleteExecutionsParams_ params in
  let valid := NamespaceID dp <> "" /\ Namespace dp <> "" in
  let out := run env params in
  let r := fst (fst out) in
  forall n,
    (In (IncCounter ReclaimResourcesNamespaceDeleteSuccessCount n)
        (trace (snd out)) <->
     n = 1 /\ snd (fst out) = None) /\
    (In (IncCounter ReclaimResourcesNamespaceDeleteFailureCount n)
        (trace (snd out)) <->
     n = 1 /\ valid /\ snd (fst out) <> None) /\
    (In (IncCounter ReclaimResourcesDeleteExecutionsSuccessCount n)
        (trace (snd out)) <->
     n = DeleteSuccessCount r /\ n > 0 /\ valid) /\
    (In (IncCounter ReclaimResourcesDeleteExecutionsFailureCount n)
        (trace (snd out)) <->
     n = DeleteErrorCount r /\ n > 0 /\ valid).
Proof.
  cbn zeta. intros n.
  destruct (run_cases env params)
    as [[Hmiss [msg Hrun]]
       | (Hid & Hns & body & r & err & HB & Hout & Htrace)].
  - rewrite Hrun. cbn.
    repeat split; try contradiction; try tauto;
      try (intros [_ Hc]; discriminate);
      try (intros (_ & _ & Hc & _); tauto);
      intros (_ & _ & Hc); tauto.
  - rewrite Htrace, Hout. cbn [fst snd].
    destruct (Body_deleted _ _ _ _ _ HB) as [_ Hflag].
    pose proof (Body_order _ _ _ _ _ HB)
      as (refresh & step & sleeps & deletion & -> & F0 & _ & F1 & F2 & F3
          & _).
    assert (Hbody : forall c k,
               In (IncCounter c k) refresh \/ In (IncCounter c k) step \/
               In (IncCounter c k) sleeps \/ In (IncCounter c k) deletion ->
               False).
    { intros c k Hin.
      rewrite Forall_forall in F0, F1, F2, F3.
      destruct Hin as [Hin | [Hin | [Hin | Hin]]];
        [apply F0 in Hin | apply F1 in Hin | apply F2 in Hin
         | apply F3 in Hin]; discriminate. }
    rewrite !in_app_iff, !In_deferredCounters.
    assert (Hfail : err <> None <-> NamespaceDeleted r = false).
    { rewrite Hflag. destruct (NamespaceDeleted r); split; congruence. }
    (split; [| split; [| split]]); (split; intros Hx);
      [ destruct Hx as [Hx | Hx]; [apply Hbody in Hx; contradiction | tauto]
      | right; tauto
      | destruct Hx as [Hx | Hx]; [apply Hbody in Hx; contradiction | tauto]
      | right; tauto
      | destruct Hx as [Hx | Hx]; [apply Hbody in Hx; contradiction | tauto]
      | right; tauto
      | destruct Hx as [Hx | Hx]; [apply Hbody in Hx; contradiction | tauto]
      | right; tauto ].
Qed.

(** ** What Step 1 is called with and what it returns *)

Lemma deleteWorkflowExecutions_calls env p st out st' :
  deleteWorkflowExecutions env p st = (out, st') ->
  exists new, trace st' = trace st ++ new /\ Forall (stepCall env p) new.
Proof.
  intros R. unfold deleteWorkflowExecutions in R. winv R.
  all: traces; eexists; (split; [reflexivity |]).
  all: repeat match goal with
         | Ev : (removeStdVisVersion _ =? _) = true |- _ =>
             apply Z.eqb_eq in Ev
         | Ez : (_ =? 0) = false |- _ => apply Z.eqb_neq in Ez
         end.
  all: repeat (constructor; [cbn; repeat split; eauto |]); constructor.
Qed.

(** The error of Step 1, traced to the call that failed. *)
Lemma deleteWorkflowExecutions_error env p st r e st' :
  deleteWorkflowExecutions env p st = ((r, Some e), st') ->
  (exists cause,
     removeStdVisVersion env = DefaultVersion /\
     result (isAdvancedVisibility env) = inl cause /\
     e = Errorf ErrUnableToExecuteActivity "IsAdvancedVisibilityActivity"
           cause) \/
  (exists cause,
     result (countExecutions env) = inl cause /\
     e = Errorf ErrUnableToExecuteActivity
           "CountExecutionsAdvVisibilityActivity" cause) \/
  (exists cause,
     result (deleteExecutions env) = inl cause /\
     e = Errorf ErrUnableToExecuteChildWorkflow deleteexecutionsWorkflowName
           cause) \/
  (exists cause,
     result (ensureNoExecutions env) = Some cause /\
     ((exists appErr,
         asApplicationError cause = Some appErr /\
         isNotDeletedErrType (Type_ appErr) = true /\
         e = NewApplicationError (Message appErr) (Type_ appErr)
               [IntDetail (decodeNotDeletedCount appErr)]) \/
      ((forall appErr, asApplicationError cause = Some appErr ->
                       isNotDeletedErrType (Type_ appErr) = false) /\
       e = Errorf ErrUnableToExecuteActivity "EnsureNoExecutionsActivity"
             cause))).
Proof.
  intros R. remember (r, Some e) as out eqn:Hout.
  unfold deleteWorkflowExecutions in R. winv R.
  all: inversion Hout; subst; clear Hout.
  all: repeat match goal with
         | Ev : (removeStdVisVersion _ =? _) = true |- _ =>
             apply Z.eqb_eq in Ev
         end.
  all: rewrite ?notDeletedCount_decoded.
  all: try solve [left; eexists; repeat split; eassumption].
  all: try solve [right; left; eexists; split; reflexivity].
  all: try solve [right; right; left; eexists; split; reflexivity].
  all: right; right; right; eexists; (split; [reflexivity |]).
  all: try solve [left; eexists; repeat split; eassumption].
  all: right; (split; [| reflexivity]); congruence.
Qed.

(** In a body, every call of Step 1 is made as [stepCall] says. *)
Lemma Body_step_calls env p body r err :
  Body env p body r err ->
  forall c, In c body -> stage c = 1%nat -> stepCall env p c.
Proof.
  intros HB c Hin Hstage.
  assert (Hstep : forall st1 st2 out new,
             deleteWorkflowExecutions env p st1 = (out, st2) ->
             trace st2 = trace st1 ++ new -> In c new -> stepCall env p c).
  { intros st1 st2 out new Rstep Enew Hc.
    destruct (deleteWorkflowExecutions_calls _ _ _ _ _ Rstep)
      as (new' & Enew' & Fnew).
    rewrite Enew in Enew'. apply app_inv_head in Enew' as <-.
    rewrite Forall_forall in Fnew. auto. }
  assert (Hloop : forall waits st2 st3 sleeps,
             awaitNamespaceDeleteDelay waits 0 st2 = (tt, st3) ->
             trace st3 = trace st2 ++ sleeps -> In c sleeps -> False).
  { intros waits st2 st3 sleeps Rloop Eloop Hc.
    destruct (awaitNamespaceDeleteDelay_stage _ _ _ _ _ Rloop)
      as (sleeps' & Eloop' & Fsleeps).
    rewrite Eloop in Eloop'. apply app_inv_head in Eloop' as <-.
    rewrite Forall_forall in Fsleeps. apply Fsleeps in Hc. congruence. }
  destruct HB as [e Hh | e Hh Hs | st1 st2 r e new Hh Hs Rstep Enew
                 | st1 st2 st3 r new sleeps e Hh Hs Rstep Enew Rloop Eloop Hd
                 | st1 st2 st3 r new sleeps Hh Hs Rstep Enew Rloop Eloop Hd];
    cbn [In] in Hin; rewrite ?in_app_iff in Hin; cbn [In] in Hin;
    repeat match goal with
           | Hor : _ \/ _ |- _ => destruct Hor as [Hor | Hor]
           | Hf : False |- _ => contradiction
           end;
    subst; try discriminate; eauto; exfalso; eauto.
Qed.

(** The bulk-deletion child workflow is started only after a count other
    than zero, under the id made of the child workflow's name, a slash and
    the namespace name, and with the parameters of the run after
    [ApplyDefaults]. *)
Theorem child_workflow_call env params workflowID p
    (called :
       In (DeleteExecutionsWorkflow workflowID p)
          (trace (snd (run env params)))) :
  let dp := DeleteExecutionsParams_ params in
  workflowID = (deleteexecutionsWorkflowName ++ "/" ++ Namespace dp)%string /\
  p = {| Namespace := Namespace dp;
         NamespaceID := NamespaceID dp;
         Config_ := ApplyDefaults (Config_ dp) |} /\
  exists count, result (countExecutions env) = inr count /\ count <> 0.
Proof.
  cbn zeta.
  destruct (run_cases env params)
    as [[Hmiss [msg Hrun]]
       | (Hid & Hns & body & r & err & HB & Hout & Htrace)].
  - rewrite Hrun in called. contradiction.
  - rewrite Htrace, in_app_iff in called. destruct called as [Hin | Hin].
    + exact (Body_step_calls _ _ _ _ _ HB _ Hin eq_refl).
    + pose proof (deferredCounters_stage r) as Hc.
      rewrite Forall_forall in Hc. apply Hc in Hin. discriminate.
Qed.

(** The ensure-no-executions activity is called only after the child
    workflow returned, with the namespace of the run and the error count the
    child reported. *)
Theorem ensure_no_executions_call env params nsID ns notDeletedCount
    (called :
       In (EnsureNoExecutionsAdvVisibilityActivity nsID ns notDeletedCount)
          (trace (snd (run env params)))) :
  let dp := DeleteExecutionsParams_ params in
  nsID = NamespaceID dp /\ ns = Namespace dp /\
  exists der, result (deleteExecutions env) = inr der /\
              notDeletedCount = ErrorCount der.
Proof.
  cbn zeta.
  destruct (run_cases env params)
    as [[Hmiss [msg Hrun]]
       | (Hid & Hns & body & r & err & HB & Hout & Htrace)].
  - rewrite Hrun in called. contradiction.
  - rewrite Htrace, in_app_iff in called. destruct called as [Hin | Hin].
    + exact (Body_step_calls _ _ _ _ _ HB _ Hin eq_refl).
    + pose proof (deferredCounters_stage r) as Hc.
      rewrite Forall_forall in Hc. apply Hc in Hin. discriminate.
Qed.

(** The errors [ReclaimResourcesWorkflow] returns, each traced to its
    cause.  With a namespace id or a namespace name missing it is the
    non-retryable application error of [validateParams], and only then.
    With both present it is the error of setting the update handler wrapped
    in [ErrUnableToSetUpdateHandler]; or the error of the cache-refresh
    sleep as it is; or the error of a failed activity wrapped in
    [ErrUnableToExecuteActivity] under the activity's name; or the error of
    the child workflow wrapped in [ErrUnableToExecuteChildWorkflow]; or, for
    an ensure activity that failed with an application error of one of the
    three not-deleted types, a retryable application error of the same
    message and type with one integer detail.  So, after validation, a
    non-retryable application error is returned only if the cache-refresh
    sleep returned it: the workflow builds none of its own. *)
Theorem run_error_kinds env params e
    (failed : snd (fst (run env params)) = Some e) :
  let dp := DeleteExecutionsParams_ params in
  let unable := Errorf ErrUnableToExecuteActivity in
  ((NamespaceID dp = "" /\
    e = NewNonRetryableApplicationError "namespace ID is required" "") \/
   (NamespaceID dp <> "" /\ Namespace dp = "" /\
    e = NewNonRetryableApplicationError "namespace is required" "") \/
   (NamespaceID dp <> "" /\ Namespace dp <> "" /\
    ((exists cause,
        setUpdateHandlerError env = Some cause /\
        e = Errorf ErrUnableToSetUpdateHandler "" cause) \/
     (setUpdateHandlerError env = None /\
      result (cacheRefreshSleep env) = Some e) \/
     (setUpdateHandlerError env = None /\
      result (cacheRefreshSleep env) = None /\
      ((exists cause,
          removeStdVisVersion env = DefaultVersion /\
          result (isAdvancedVisibility env) = inl cause /\
          e = unable "IsAdvancedVisibilityActivity" cause) \/
       (exists cause,
          result (countExecutions env) = inl cause /\
          e = unable "CountExecutionsAdvVisibilityActivity" cause) \/
       (exists cause,
          result (deleteExecutions env) = inl cause /\
          e = Errorf ErrUnableToExecuteChildWorkflow
                deleteexecutionsWorkflowName cause) \/
       (exists cause,
          result (ensureNoExecutions env) = Some cause /\
          ((exists appErr,
              asApplicationError cause = Some appErr /\
              isNotDeletedErrType (Type_ appErr) = true /\
              e = AppError
                    {| Message := Message appErr;
                       Type_ := Type_ appErr;
                       NonRetryable := false;
                       Details :=
                         [IntDetail (decodeNotDeletedCount appErr)] |}) \/
           ((forall appErr, asApplicationError cause = Some appErr ->
                            isNotDeletedErrType (Type_ appErr) = false) /\
            e = unable "EnsureNoExecutionsActivity" cause))) \/
       (exists cause,
          result (deleteNamespace env) = Some cause /\
          e = unable "DeleteNamespaceActivity" cause)))))) /\
  (NamespaceID dp <> "" -> Namespace dp <> "" ->
   forall a, e = AppError a -> NonRetryable a = true ->
   setUpdateHandlerError env = None /\
   result (cacheRefreshSleep env) = Some e).
Proof.
  cbn zeta.
  assert (Hkinds :
    forall st1 st2 r,
      deleteWorkflowExecutions env
        (fst (validateParams params)) st1 = ((r, Some e), st2) ->
      forall a, e = AppError a -> NonRetryable a = false).
  { intros st1 st2 r Rstep a Ha.
    destruct (deleteWorkflowExecutions_error _ _ _ _ _ _ Rstep)
      as [(c & _ & _ & Hk) | [(c & _ & Hk) | [(c & _ & Hk)
         | (c & _ & [(appErr & _ & _ & Hk) | [_ Hk]])]]];
      rewrite Hk in Ha; try discriminate Ha.
    unfold NewApplicationError in Ha. now injection Ha as <-. }
  destruct (validateParams_cases params)
    as [[Hid Hv] | [(Hid & Hns & Hv) | (Hid & Hns & Hv)]]; cbn zeta in Hv.
  - rewrite (run_invalid env params _ _ Hv) in failed.
    injection failed as <-. split; [now left | contradiction].
  - rewrite (run_invalid env params _ _ Hv) in failed.
    injection failed as <-. split; [right; left; now repeat split |].
    contradiction.
  - rewrite Hv in Hkinds. cbn [fst] in Hkinds.
    destruct (run_body env params _ Hv)
      as (body & r & err & HB & Hout & _).
    rewrite Hout in failed. cbn in failed. subst err.
    inversion HB; subst.
    + split.
      * right; right. repeat split; try assumption. left. eauto.
      * intros _ _ a Ha. discriminate Ha.
    + split.
      * right; right. repeat split; try assumption. right; left. now split.
      * intros _ _ a _ _. now split.
    + match goal with
      | Rstep : deleteWorkflowExecutions _ _ _ = _ |- _ =>
          pose proof (Hkinds _ _ _ Rstep) as Hretry;
          destruct (deleteWorkflowExecutions_error _ _ _ _ _ _ Rstep)
            as [Hk | [Hk | [Hk | Hk]]]
      end.
      all: split;
        [ right; right; repeat split; try assumption;
          right; right; repeat split; try assumption
        | intros _ _ a Ha Hn; rewrite (Hretry a Ha) in Hn; discriminate Hn ].
      * left. exact Hk.
      * right; left. exact Hk.
      * right; right; left. exact Hk.
      * right; right; right; left. exact Hk.
    + split.
      * right; right. repeat split; try assumption.
        right; right. repeat split; try assumption.
        right; right; right; right. eauto.
      * intros _ _ a Ha. discriminate Ha.
Qed.

(** ** The update validator and the delay loop *)

(** The validator of [update_namespace_delete_delay] accepts a request
    exactly when it is not empty and parses to a duration between zero and
    thirty days, both included; every rejection is a non-retryable
    application error of the validation-error type. *)
Theorem updateValidator_accepts_iff request :
  (updateValidator request = None <->
   request <> "" /\
   exists d, ParseDuration request = Some d /\ 0 <= d <= 30 * 24 * Hour) /\
  (forall e, updateValidator request = Some e ->
             exists msg,
               e = NewNonRetryableApplicationError msg
                     ValidationErrorErrType).
Proof.
  unfold updateValidator.
  destruct (String.eqb_spec request "") as [-> | Hne].
  { split; [split; [discriminate | tauto] |].
    intros e [= <-]. eauto. }
  destruct (ParseDuration request) as [d |].
  - destruct (Z.ltb_spec d 0).
    { split; [split; [discriminate |] |].
      - intros (_ & d' & [= <-] & Hd). lia.
      - intros e [= <-]. eauto. }
    destruct (Z.gtb_spec d (30 * 24 * Hour)).
    { split; [split; [discriminate |] |].
      - intros (_ & d' & [= <-] & Hd). lia.
      - intros e [= <-]. eauto. }
    split; [split; [| reflexivity] | discriminate].
    intros _. split; [assumption |]. exists d. split; [reflexivity | lia].
  - split; [split; [discriminate |] |].
    + intros (_ & d' & Hc & _). discriminate.
    + intros e [= <-]. eauto.
Qed.

Lemma cancellations_app l l' :
  cancellations (l ++ l') = (cancellations l + cancellations l')%nat.
Proof.
  induction l as [| u l IH]; [reflexivity |].
  cbn. destruct u; cbn; now rewrite IH.
Qed.

Lemma delaySleeps_app l l' :
  delaySleeps (l ++ l') = delaySleeps l ++ delaySleeps l'.
Proof.
  induction l as [| c l IH]; [reflexivity |].
  cbn. destruct c; cbn; now rewrite IH.
Qed.

Lemma delaySleeps_other_stage l :
  Forall (fun c => stage c <> 2%nat) l -> delaySleeps l = [].
Proof.
  induction 1 as [| c l Hc _ IH]; [reflexivity |].
  destruct c; cbn in *; congruence.
Qed.

(** After a sleep is armed the delay is zero; if it is positive once the
    requests are delivered, the handler cancelled the sleep. *)
Lemma deliverAll_rearm requests : forall st u st' wait,
  deliverAll requests st = (u, st') ->
  cancelDeleteDelay st = Some wait ->
  namespaceDeleteDelay st <= 0 ->
  namespaceDeleteDelay st' > 0 ->
  exists later,
    updates st' = updates st ++ later /\ (1 <= cancellations later)%nat.
Proof.
  induction requests as [| r rest IH]; intros st u st' wait R Hc Hd Hd'.
  - cbn in R. injection R as _ <-. lia.
  - cbn [deliverAll] in R. apply wbind_inv in R as (u1 & st1 & R1 & R).
    unfold deliver in R1. destruct (updateValidator r).
    + unfold note in R1. injection R1 as _ <-.
      destruct (IH _ _ _ wait R Hc Hd Hd') as (later & Hu & Hn).
      cbn [updates] in Hu. exists (UpdateRejected r :: later).
      rewrite Hu, <- app_assoc. split; [reflexivity | exact Hn].
    + unfold updateHandler in R1. winv R1; cbn in *; try congruence.
      apply deliverAll_updates in R as [later Hu]. cbn [updates] in Hu.
      eexists. rewrite Hu, <- !app_assoc. split; [reflexivity |].
      cbn. lia.
Qed.

(** What the delay loop adds to the trace and to the log of updates. *)
Lemma awaitNamespaceDeleteDelay_sleeps waits : forall wait st,
  let st' := snd (awaitNamespaceDeleteDelay waits wait st) in
  exists sleeps later,
    trace st' = trace st ++ sleeps /\
    updates st' = updates st ++ later /\
    Forall (fun c => stage c = 2%nat) sleeps /\
    Forall (fun d => d > 0) (delaySleeps sleeps) /\
    (List.length sleeps <= 1 + cancellations later)%nat /\
    (namespaceDeleteDelay st <= 0 -> sleeps = [] /\ later = []).
Proof.
  induction waits as [| requests rest IH]; intros wait st; cbn zeta;
    destruct (awaitNamespaceDeleteDelay _ wait st) as [u st'] eqn:R;
    cbn [snd]; cbn [awaitNamespaceDeleteDelay] in R;
    destruct (Z.gtb_spec (namespaceDeleteDelay st) 0) as [Hpos | Hle].
  - winv R. cbn [trace updates].
    exists [SleepCancelable wait (namespaceDeleteDelay st)], [].
    rewrite app_nil_r.
    repeat split; first [solve [repeat constructor; lia] | cbn; lia].
  - injection R as _ <-. exists [], []. rewrite !app_nil_r.
    repeat split; first [solve [constructor] | cbn; lia].
  - winv R.
    match goal with
    | Hd : deliverAll _ _ = (_, ?s) |- _ =>
        rename s into st1; rename Hd into Rd
    end.
    specialize (IH (S wait) st1). cbn zeta in IH. rewrite R in IH.
    cbn [snd] in IH.
    destruct IH as (sleeps & later & Et & Eu & Fs & Fd & Hlen & Hidle).
    pose proof (deliverAll_inv _ _ _ _ Rd) as [Et1 _].
    pose proof (deliverAll_updates _ _ _ _ Rd) as [later1 Eu1].
    cbn [trace updates] in Et1, Eu1.
    exists (SleepCancelable wait (namespaceDeleteDelay st) :: sleeps),
      (later1 ++ later).
    rewrite Et, Et1, Eu, Eu1, <- !app_assoc.
    split; [reflexivity |]. split; [reflexivity |].
    split; [constructor; [reflexivity | assumption] |].
    split; [cbn; constructor; [lia | assumption] |].
    split; [| lia].
    rewrite cancellations_app. cbn [List.length].
    destruct (Z.gtb_spec (namespaceDeleteDelay st1) 0) as [Hre | Hno].
    + destruct (deliverAll_rearm _ _ _ _ wait Rd eq_refl) as (l1 & El1 & Hc);
        [cbn; lia | lia |].
      cbn [updates] in El1. rewrite Eu1 in El1.
      apply app_inv_head in El1 as <-. lia.
    + destruct (Hidle Hno) as [-> ->]. cbn. lia.
  - injection R as _ <-. exists [], []. rewrite !app_nil_r.
    repeat split; first [solve [constructor] | cbn; lia].
Qed.

Lemma Body_sleeps env p body r err :
  Body env p body r err -> Forall (fun d => d > 0) (delaySleeps body).
Proof.
  intros HB.
  assert (Hstep : forall st1 st2 out new,
             deleteWorkflowExecutions env p st1 = (out, st2) ->
             trace st2 = trace st1 ++ new -> delaySleeps new = []).
  { intros st1 st2 out new Rstep Enew.
    destruct (deleteWorkflowExecutions_stage _ _ _ _ _ Rstep)
      as (new' & Enew' & Fnew).
    rewrite Enew in Enew'. apply app_inv_head in Enew' as <-.
    apply delaySleeps_other_stage.
    apply (Forall_stage_neq new (fun n => n = 1%nat));
      [assumption | intros n ->; discriminate]. }
  assert (Hloop : forall waits st2 st3 sleeps,
             awaitNamespaceDeleteDelay waits 0 st2 = (tt, st3) ->
             trace st3 = trace st2 ++ sleeps ->
             Forall (fun d => d > 0) (delaySleeps sleeps)).
  { intros waits st2 st3 sleeps Rloop Eloop.
    pose proof (awaitNamespaceDeleteDelay_sleeps waits 0%nat st2) as Hl.
    cbn zeta in Hl. rewrite Rloop in Hl. cbn [snd] in Hl.
    destruct Hl as (sleeps' & later & Et & _ & _ & Fd & _).
    rewrite Eloop in Et. apply app_inv_head in Et as <-. exact Fd. }
  destruct HB as [e Hh | e Hh Hs | st1 st2 r e new Hh Hs Rstep Enew
                 | st1 st2 st3 r new sleeps e Hh Hs Rstep Enew Rloop Eloop Hd
                 | st1 st2 st3 r new sleeps Hh Hs Rstep Enew Rloop Eloop Hd];
    cbn [delaySleeps]; rewrite ?delaySleeps_app; cbn [delaySleeps];
    try constructor.
  - rewrite (Hstep _ _ _ _ Rstep Enew). constructor.
  - rewrite (Hstep _ _ _ _ Rstep Enew), app_nil_r. cbn. eauto.
  - rewrite (Hstep _ _ _ _ Rstep Enew), app_nil_r. cbn. eauto.
Qed.

(** Step 2 sleeps at most once more than the handler cancelled a sleep
    meanwhile: every sleep after the first follows a cancellation, so the
    loop ends once no further update is accepted; and it neither sleeps nor
    lets the handler run when it finds no positive delay. *)
Theorem delay_loop_rearms_only_after_cancellation waits wait st :
  let st' := snd (awaitNamespaceDeleteDelay waits wait st) in
  exists sleeps later,
    trace st' = trace st ++ sleeps /\
    updates st' = updates st ++ later /\
    (List.length (delaySleeps sleeps) <= 1 + cancellations later)%nat /\
    (namespaceDeleteDelay st <= 0 -> sleeps = [] /\ later = []).
Proof.
  cbn zeta.
  destruct (awaitNamespaceDeleteDelay_sleeps waits wait st)
    as (sleeps & later & Et & Eu & Fs & _ & Hlen & Hidle).
  exists sleeps, later.
  split; [exact Et |]. split; [exact Eu |]. split; [| exact Hidle].
  assert (Hl : (List.length (delaySleeps sleeps) <= List.length sleeps)%nat).
  { clear. induction sleeps as [| c l IH]; [constructor |].
    destruct c; cbn; lia. }
  lia.
Qed.

(** Every cancelable sleep of a run lasts a positive duration. *)
Theorem delay_sleeps_are_positive env params :
  Forall (fun d => d > 0) (delaySleeps (trace (snd (run env params)))).
Proof.
  destruct (run_cases env params)
    as [[Hmiss [msg Hrun]]
       | (Hid & Hns & body & r & err & HB & Hout & Htrace)].
  - rewrite Hrun. constructor.
  - rewrite Htrace, delaySleeps_app.
    rewrite (delaySleeps_other_stage (deferredCounters r)), app_nil_r.
    + exact (Body_sleeps _ _ _ _ _ HB).
    + apply (Forall_stage_neq _ (fun n => n = 4%nat));
        [apply deferredCounters_stage | intros n ->; discriminate].
Qed.

(** ** Updates do not change what a run returns *)

Lemma sameValue_ret {A} (a : A) : sameValue (wret a) (wret a).
Proof. intros st st'. reflexivity. Qed.

Lemma sameValue_unit (m m' : Workflow unit) : sameValue m m'.
Proof. intros st st'. now destruct (fst (m st)), (fst (m' st')). Qed.

Lemma sameValue_bind {A B} (m m' : Workflow A) (f f' : A -> Workflow B) :
  sameValue m m' -> (forall a, sameValue (f a) (f' a)) ->
  sameValue (wbind m f) (wbind m' f').
Proof.
  intros Hm Hf st st'. unfold wbind.
  specialize (Hm st st').
  destruct (m st) as [a st1], (m' st') as [a' st1']. cbn in Hm. subst a'.
  apply Hf.
Qed.

Lemma sameValue_await {A B} (c c' : Call) (a a' : Await A)
    (f f' : A -> Workflow B) :
  sameValue (f (result a)) (f' (result a')) ->
  sameValue (wbind (await c a) f) (wbind (await c' a') f').
Proof.
  intros Hf st st'. unfold wbind.
  destruct (await c a st) as [r st1] eqn:R.
  destruct (await c' a' st') as [r' st1'] eqn:R'.
  apply await_inv in R as (-> & _). apply await_inv in R' as (-> & _).
  apply Hf.
Qed.

Lemma deleteWorkflowExecutions_sameValue env env' p :
  sameResults env env' ->
  sameValue (deleteWorkflowExecutions env p)
    (deleteWorkflowExecutions env' p).
Proof.
  intros (_ & _ & Hv & Hprobe & Hcount & Hchild & Hensure & _).
  unfold deleteWorkflowExecutions. rewrite Hv.
  apply sameValue_bind; [apply sameValue_unit | intros _].
  apply sameValue_bind.
  - destruct (removeStdVisVersion env' =? DefaultVersion);
      [| apply sameValue_ret].
    apply sameValue_await. unfold sameProbe in Hprobe.
    destruct (result (isAdvancedVisibility env)) as [e | b],
      (result (isAdvancedVisibility env')) as [e' | b'];
      try contradiction; subst; apply sameValue_ret.
  - intros [e |]; [apply sameValue_ret |].
    apply sameValue_await. rewrite Hcount.
    destruct (result (countExecutions env')) as [e | count];
      [apply sameValue_ret |].
    destruct (count =? 0); [apply sameValue_ret |].
    apply sameValue_await. rewrite Hchild.
    destruct (result (deleteExecutions env')) as [e | der];
      [apply sameValue_ret |].
    apply sameValue_await. rewrite Hensure.
    destruct (result (ensureNoExecutions env')) as [e |];
      [| apply sameValue_ret].
    destruct (asApplicationError e) as [a |]; [| apply sameValue_ret].
    destruct (isNotDeletedErrType (Type_ a)); apply sameValue_ret.
Qed.

(** What [ReclaimResourcesWorkflow] returns, result and error, depends only
    on the results of its calls: two runs given the same results return the
    same, whatever update requests are delivered to either and whatever
    boolean the visibility probe answers. *)
Theorem run_outcome_ignores_updates env env' params
    (same : sameResults env env') :
  fst (run env params) = fst (run env' params).
Proof.
  pose proof (deleteWorkflowExecutions_sameValue env env') as Hstep.
  pose proof same
    as (Hh & Hs & Hv & Hprobe & Hcount & Hchild & Hensure & Hd).
  unfold run, ReclaimResourcesWorkflow.
  destruct (validateParams params) as [p [e |]]; [reflexivity |].
  refine ((_ : sameValue _ _) initialState initialState).
  apply sameValue_bind.
  - apply sameValue_bind; [apply sameValue_unit | intros _].
    apply sameValue_bind; [apply sameValue_unit | intros _].
    rewrite Hh.
    destruct (setUpdateHandlerError env'); [apply sameValue_ret |].
    apply sameValue_await. rewrite Hs.
    destruct (result (cacheRefreshSleep env')); [apply sameValue_ret |].
    apply sameValue_bind; [apply Hstep; assumption | intros [r [e |]]];
      [apply sameValue_ret |].
    apply sameValue_bind; [apply sameValue_unit | intros _].
    apply sameValue_await. rewrite Hd.
    destruct (result (deleteNamespace env')); apply sameValue_ret.
  - intros [r err].
    apply sameValue_bind; [apply sameValue_unit | intros _].
    apply sameValue_ret.
Qed.

End Runs.

#[local] Existing Instance sampleDependencies.

(** A child workflow is started in the sample run that finds five
    executions. *)
Lemma child_workflow_call_witness :
  exists count,
    result (countExecutions (sampleEnv 0 5 None [])) = inr count /\
    count <> 0.
Proof.
  apply (child_workflow_call (deps := sampleDependencies)
           (sampleEnv 0 5 None []) (sampleParams 0)
           "temporal-sys-delete-executions-workflow/acme"
           (DeleteExecutionsParams_ (sampleParams 0))).
  cbn. tauto.
Defined.

(** The ensure activity of the same run is given the error count 2 that the
    sample child reports. *)
Lemma ensure_no_executions_call_witness :
  exists der,
    result (deleteExecutions (sampleEnv 0 5 None [])) = inr der /\
    2 = ErrorCount der.
Proof.
  apply (ensure_no_executions_call (sampleEnv 0 5 None []) (sampleParams 0)
           "acme-id" "acme" 2).
  cbn. tauto.
Defined.

(** The run whose ensure activity reports two executions left ends with the
    retryable application error made from the one the activity returned. *)
Lemma run_error_kinds_witness :
  exists appErr,
    asApplicationError twoExecutionsLeft = Some appErr /\
    isNotDeletedErrType (Type_ appErr) = true /\
    AppError {| Message := "executions still exist";
                Type_ := "ExecutionsStillExist";
                NonRetryable := false;
                Details := [IntDetail 2] |}
    = AppError {| Message := Message appErr;
                  Type_ := Type_ appErr;
                  NonRetryable := false;
                  Details := [IntDetail (decodeNotDeletedCount appErr)] |}.
Proof.
  destruct (run_error_kinds (sampleEnv 0 5 (Some twoExecutionsLeft) [])
              (sampleParams 0) _ eq_refl)
    as [[[Hid _] | [(_ & Hns & _) | (_ & _ & Hvalid)]] _];
    [discriminate Hid | discriminate Hns |].
  destruct Hvalid as [(c & Hk & _) | [[_ Hk] | (_ & _ & Hstep)]];
    [discriminate Hk | discriminate Hk |].
  destruct Hstep
    as [(c & _ & Hk & _) | [(c & Hk & _) | [(c & Hk & _)
       | [(c & Hc & Hk) | (c & Hk & _)]]]];
    try discriminate Hk.
  injection Hc as <-.
  destruct Hk as [Hk | [_ Hk]]; [exact Hk | discriminate Hk].
Defined.

(** Two sample runs that differ in the updates delivered during the delay
    return the same result. *)
Lemma run_outcome_ignores_updates_witness :
  fst (run (sampleEnv 0 5 None [["2h"]; ["0"]]) (sampleParams Hour))
  = fst (run (sampleEnv 0 5 None []) (sampleParams Hour)).
Proof.
  apply (run_outcome_ignores_updates
           (sampleEnv 0 5 None [["2h"]; ["0"]]) (sampleEnv 0 5 None [])
           (sampleParams Hour)).
  repeat split.
Defined.

End ReclaimResourcesExtras.
